(** * Activity sign-up page controller (src/static/app.js)

    A shallow embedding of the browser-side controller: the activity
    renderer [fetchActivities], the sign-up form's submit handler and the
    delegated click handler that removes a participant.

    - JavaScript strings are sequences of UTF-16 code units ([jsstring]).
    - Values obtained from [response.json()] are the inductive [value].
    - The page (the four elements the script captures, the pending timers,
      the console, the requests sent and the dialogs shown) is the record
      [world]; the handlers are state transformers over it, with the
      outcome of every awaited request supplied by the environment.
    - Exceptions are the [Throw] completion; state changed before a throw
      stays changed, as in the script.
    - A listener runs from its event to its end with the outcomes of its
      awaited requests given; [event.preventDefault()] changes nothing of
      the page and is left out. *)

From Stdlib Require Import String Ascii ZArith List Bool Lia.
From Stdlib Require Import DecimalString.
Import ListNotations.
Local Open Scope Z_scope.
Set Warnings "-register-all".

(** ** Strings and completions *)

(** A JavaScript string: its UTF-16 code units, each in [0, 65536). *)
Definition jsstring := list Z.

Definition code_unit (c : Z) : bool := (0 <=? c) && (c <? 65536).

(** An ASCII literal of the script as a JavaScript string. *)
Definition lit (s : string) : jsstring :=
  map (fun a => Z.of_N (N_of_ascii a)) (list_ascii_of_string s).

Fixpoint jsstring_eqb (a b : jsstring) : bool :=
  match a, b with
  | [], [] => true
  | x :: a', y :: b' => (x =? y) && jsstring_eqb a' b'
  | _, _ => false
  end.

Inductive error : Type :=
| TypeError
| URIError
| SyntaxError
| NetworkFailure.

Inductive completion (A : Type) : Type :=
| Normal (a : A)
| Throw (e : error).
Arguments Normal {A} a.
Arguments Throw {A} e.

Definition cbind {A B} (c : completion A) (k : A -> completion B) : completion B :=
  match c with
  | Normal a => k a
  | Throw e => Throw e
  end.

Declare Scope completion_scope.
Delimit Scope completion_scope with completion.
Notation "'let?' x ':=' c 'in' k" := (cbind c (fun x => k))
  (at level 10, x name, c at level 100, k at level 200) : completion_scope.
Local Open Scope completion_scope.

(** ** encodeURIComponent and decodeURIComponent (ECMA-262, 19.2.6) *)

Module URI.

Definition is_alpha (c : Z) : bool :=
  ((65 <=? c) && (c <=? 90)) || ((97 <=? c) && (c <=? 122)).

Definition is_digit (c : Z) : bool := (48 <=? c) && (c <=? 57).

(** uriMark: hyphen, underscore, full stop, exclamation mark, tilde,
    asterisk, apostrophe and the two round brackets. *)
Definition is_mark (c : Z) : bool :=
  existsb (Z.eqb c) [45; 95; 46; 33; 126; 42; 39; 40; 41].

(** The characters encodeURIComponent leaves alone. *)
Definition uriUnescaped (c : Z) : bool := is_alpha c || is_digit c || is_mark c.

Definition is_leading_surrogate (c : Z) : bool := (0xD800 <=? c) && (c <=? 0xDBFF).
Definition is_trailing_surrogate (c : Z) : bool := (0xDC00 <=? c) && (c <=? 0xDFFF).

(** Upper-case hexadecimal digit of [d] in [0, 16). *)
Definition hex_digit (d : Z) : Z := if d <? 10 then 48 + d else 55 + d.

(** "%XX" for one octet. *)
Definition percent_octet (b : Z) : jsstring := [37; hex_digit (b / 16); hex_digit (b mod 16)].

(** The UTF-8 transformation of a code point. *)
Definition utf8_octets (cp : Z) : list Z :=
  if cp <? 0x80 then [cp]
  else if cp <? 0x800 then [0xC0 + cp / 64; 0x80 + cp mod 64]
  else if cp <? 0x10000 then
    [0xE0 + cp / 4096; 0x80 + (cp / 64) mod 64; 0x80 + cp mod 64]
  else
    [0xF0 + cp / 262144; 0x80 + (cp / 4096) mod 64;
     0x80 + (cp / 64) mod 64; 0x80 + cp mod 64].

Definition escape_code_point (cp : Z) : jsstring := flat_map percent_octet (utf8_octets cp).

(** UTF16SurrogatePairToCodePoint. *)
Definition pair_code_point (lead trail : Z) : Z :=
  (lead - 0xD800) * 0x400 + (trail - 0xDC00) + 0x10000.

(** Encode(string, unescaped set of encodeURIComponent): a code unit of the
    unescaped set is copied; otherwise the code point at that position is
    taken (CodePointAt), an unpaired surrogate throws URIError, and the
    code point's UTF-8 octets are written as %XX. *)
Fixpoint encodeURIComponent (s : jsstring) : completion jsstring :=
  match s with
  | [] => Normal []
  | c :: rest =>
    if uriUnescaped c then
      let? r := encodeURIComponent rest in Normal (c :: r)
    else if is_trailing_surrogate c then Throw URIError
    else if is_leading_surrogate c then
      match rest with
      | d :: rest' =>
        if is_trailing_surrogate d then
          let? r := encodeURIComponent rest' in
          Normal (escape_code_point (pair_code_point c d) ++ r)
        else Throw URIError
      | [] => Throw URIError
      end
    else
      let? r := encodeURIComponent rest in Normal (escape_code_point c ++ r)
  end.

Definition hex_value (c : Z) : option Z :=
  if is_digit c then Some (c - 48)
  else if (65 <=? c) && (c <=? 70) then Some (c - 55)
  else if (97 <=? c) && (c <=? 102) then Some (c - 87)
  else None.

(** Decode works left to right; every failure it can meet is the same
    URIError, so it is written here as two passes over the string: the
    first reads the %XX escapes, the second joins escaped octets into code
    points. *)
Inductive token : Type :=
| Plain (c : Z)
| Escaped (b : Z).

Fixpoint unescape (s : jsstring) : completion (list token) :=
  match s with
  | [] => Normal []
  | c :: rest =>
    if c =? 37 then
      match rest with
      | h1 :: h2 :: rest' =>
        match hex_value h1, hex_value h2 with
        | Some a, Some b =>
          let? ts := unescape rest' in Normal (Escaped (16 * a + b) :: ts)
        | _, _ => Throw URIError
        end
      | _ => Throw URIError
      end
    else
      let? ts := unescape rest in Normal (Plain c :: ts)
  end.

Definition is_continuation (b : Z) : bool := (0x80 <=? b) && (b <=? 0xBF).

Definition UTF16EncodeCodePoint (cp : Z) : jsstring :=
  if cp <? 0x10000 then [cp]
  else [0xD800 + (cp - 0x10000) / 1024; 0xDC00 + (cp - 0x10000) mod 1024].

(** The octets of one escaped sequence must be a valid UTF-8 encoding: the
    first octet gives the length n (n = 1 and n > 4 are refused), the
    others are continuation octets, and overlong forms, surrogates and
    code points above 0x10FFFF are refused. *)
Fixpoint assemble (ts : list token) : completion jsstring :=
  match ts with
  | [] => Normal []
  | Plain c :: rest => let? r := assemble rest in Normal (c :: r)
  | Escaped b :: rest =>
    if b <? 0x80 then let? r := assemble rest in Normal (b :: r)
    else if b <? 0xC0 then Throw URIError
    else if b <? 0xE0 then
      match rest with
      | Escaped b1 :: rest' =>
        let cp := (b - 0xC0) * 64 + (b1 - 0x80) in
        if is_continuation b1 && (0x80 <=? cp) then
          let? r := assemble rest' in Normal (UTF16EncodeCodePoint cp ++ r)
        else Throw URIError
      | _ => Throw URIError
      end
    else if b <? 0xF0 then
      match rest with
      | Escaped b1 :: Escaped b2 :: rest' =>
        let cp := (b - 0xE0) * 4096 + (b1 - 0x80) * 64 + (b2 - 0x80) in
        if is_continuation b1 && is_continuation b2 && (0x800 <=? cp)
           && negb ((0xD800 <=? cp) && (cp <=? 0xDFFF)) then
          let? r := assemble rest' in Normal (UTF16EncodeCodePoint cp ++ r)
        else Throw URIError
      | _ => Throw URIError
      end
    else if b <? 0xF8 then
      match rest with
      | Escaped b1 :: Escaped b2 :: Escaped b3 :: rest' =>
        let cp := (b - 0xF0) * 262144 + (b1 - 0x80) * 4096
                  + (b2 - 0x80) * 64 + (b3 - 0x80) in
        if is_continuation b1 && is_continuation b2 && is_continuation b3
           && (0x10000 <=? cp) && (cp <=? 0x10FFFF) then
          let? r := assemble rest' in Normal (UTF16EncodeCodePoint cp ++ r)
        else Throw URIError
      | _ => Throw URIError
      end
    else Throw URIError
  end.

Definition decodeURIComponent (s : jsstring) : completion jsstring :=
  let? ts := unescape s in assemble ts.

(** A string whose code units are in range and whose surrogates come in
    lead/trail pairs. *)
Fixpoint well_formed (s : jsstring) : bool :=
  match s with
  | [] => true
  | c :: rest =>
    code_unit c &&
    (if is_leading_surrogate c then
       match rest with
       | d :: rest' => is_trailing_surrogate d && well_formed rest'
       | [] => false
       end
     else negb (is_trailing_surrogate c) && well_formed rest)
  end.

(** A Unicode scalar value: a code point that is not a surrogate. *)
Definition scalar (cp : Z) : Prop :=
  0 <= cp <= 0x10FFFF /\ ~ (0xD800 <= cp <= 0xDFFF).

(** The HTML tokenizer keeps a character of a double-quoted attribute
    value as it stands unless it is the quote, the ampersand, NUL or CR. *)
Definition attribute_safe (c : Z) : bool :=
  negb ((c =? 34) || (c =? 38) || (c =? 0) || (c =? 13)).

End URI.

(** ** JavaScript values *)

Definition safe_integer (z : Z) : Prop := - (2 ^ 53 - 1) <= z <= 2 ^ 53 - 1.

(** Decimal notation of an integer, as a JavaScript string. *)
Definition decimal (z : Z) : jsstring := lit (NilZero.string_of_int (Z.to_int z)).

(** What the script takes from the JavaScript engine and cannot be written
    out here: the Number type (IEEE 754 doubles) with the operations the
    script applies to it, and the Unicode upper-case mapping. The laws are
    the facts about doubles that hold on safe integers. *)
Class Platform : Type := {
  num : Type;
  num_of_Z : Z -> num;
  num_NaN : num;
  num_sub : num -> num -> num;
  num_truthy : num -> bool;
  num_to_string : num -> jsstring;
  StringToNumber : jsstring -> num;
  toUpperCase : jsstring -> jsstring;
  num_sub_exact : forall a b : Z,
    safe_integer a -> safe_integer b -> safe_integer (a - b) ->
    num_sub (num_of_Z a) (num_of_Z b) = num_of_Z (a - b);
  num_truthy_of_Z : forall a : Z,
    safe_integer a -> num_truthy (num_of_Z a) = negb (a =? 0);
  num_to_string_of_Z : forall a : Z,
    safe_integer a -> num_to_string (num_of_Z a) = decimal a
}.

(** The platform used to evaluate the script on concrete inputs: numbers
    are the integers and NaN, a string converts to a number when it is a
    plain decimal integer, and upper-casing acts on a-z. *)
Module IntegerPlatform.

Definition sub (a b : option Z) : option Z :=
  match a, b with
  | Some x, Some y => Some (x - y)
  | _, _ => None
  end.

Definition truthy (a : option Z) : bool :=
  match a with
  | Some x => negb (x =? 0)
  | None => false
  end.

Definition to_string (a : option Z) : jsstring :=
  match a with
  | Some x => decimal x
  | None => lit "NaN"
  end.

Fixpoint digits_value (acc : Z) (s : jsstring) : option Z :=
  match s with
  | [] => Some acc
  | c :: rest =>
    if URI.is_digit c then digits_value (10 * acc + (c - 48)) rest else None
  end.

Definition of_string (s : jsstring) : option Z :=
  match s with
  | [] => Some 0
  | 45 :: ((_ :: _) as ds) => option_map Z.opp (digits_value 0 ds)
  | 43 :: ((_ :: _) as ds) => digits_value 0 ds
  | _ => digits_value 0 s
  end.

Definition upper (s : jsstring) : jsstring :=
  map (fun c => if (97 <=? c) && (c <=? 122) then c - 32 else c) s.

End IntegerPlatform.

#[export] Instance integer_platform : Platform := {|
  num := option Z;
  num_of_Z := Some;
  num_NaN := None;
  num_sub := IntegerPlatform.sub;
  num_truthy := IntegerPlatform.truthy;
  num_to_string := IntegerPlatform.to_string;
  StringToNumber := IntegerPlatform.of_string;
  toUpperCase := IntegerPlatform.upper;
  num_sub_exact := fun a b _ _ _ => eq_refl;
  num_truthy_of_Z := fun a _ => eq_refl;
  num_to_string_of_Z := fun a _ => eq_refl
|}.

Section Values.
Context {P : Platform}.

(** A value read from a parsed JSON body, or [VUndefined] for a property
    that is not there. [VObj] lists the object's own properties in the
    order in which the engine enumerates them, each key once. *)
Inductive value : Type :=
| VUndefined
| VNull
| VBool (b : bool)
| VNum (n : num)
| VStr (s : jsstring)
| VArr (elems : list value)
| VObj (props : list (jsstring * value)).

Definition comma_join (parts : list jsstring) : jsstring :=
  match parts with
  | [] => []
  | p :: rest => p ++ flat_map (fun q => 44 :: q) rest
  end.

(** Whether an object has an own property [k]. *)
Definition has_key (k : jsstring) (props : list (jsstring * value)) : bool :=
  existsb (fun kv => jsstring_eqb k (fst kv)) props.

(** ToString. An array joins its elements with commas, null and undefined
    elements giving the empty string. A plain object goes through
    ToPrimitive: with no own toString property it gives
    "[object Object]"; an own toString property of a parsed object is
    never a function and hides Object.prototype.toString, and what valueOf
    returns is the object itself, so the conversion throws a TypeError. *)
Fixpoint ToString (v : value) : completion jsstring :=
  match v with
  | VUndefined => Normal (lit "undefined")
  | VNull => Normal (lit "null")
  | VBool true => Normal (lit "true")
  | VBool false => Normal (lit "false")
  | VNum n => Normal (num_to_string n)
  | VStr s => Normal s
  | VArr elems =>
    let? parts :=
      (fix each (l : list value) : completion (list jsstring) :=
         match l with
         | [] => Normal []
         | e :: rest =>
           let? part := match e with
                        | VUndefined | VNull => Normal []
                        | _ => ToString e
                        end in
           let? parts := each rest in Normal (part :: parts)
         end) elems in
    Normal (comma_join parts)
  | VObj props =>
    if has_key (lit "toString") props then Throw TypeError
    else Normal (lit "[object Object]")
  end.

(** ToNumber; arrays and objects go through ToPrimitive, which for them
    ends in their conversion to a string, with its TypeError. *)
Definition ToNumber (v : value) : completion num :=
  match v with
  | VUndefined => Normal num_NaN
  | VNull => Normal (num_of_Z 0)
  | VBool true => Normal (num_of_Z 1)
  | VBool false => Normal (num_of_Z 0)
  | VNum n => Normal n
  | VStr s => Normal (StringToNumber s)
  | VArr _ | VObj _ => let? s := ToString v in Normal (StringToNumber s)
  end.

(** ToBoolean. *)
Definition truthy (v : value) : bool :=
  match v with
  | VUndefined | VNull => false
  | VBool b => b
  | VNum n => num_truthy n
  | VStr s => negb (jsstring_eqb s [])
  | VArr _ | VObj _ => true
  end.

Fixpoint lookup (k : jsstring) (props : list (jsstring * value)) : value :=
  match props with
  | [] => VUndefined
  | (k', v) :: rest => if jsstring_eqb k k' then v else lookup k rest
  end.

(** [v.k] for the property names the script reads (max_participants,
    participants, description, schedule, message, detail, length): reading
    from null or undefined throws a TypeError, an object gives its own
    property, strings and arrays have a length, anything else gives
    undefined. *)
Definition get (v : value) (k : jsstring) : completion value :=
  match v with
  | VUndefined | VNull => Throw TypeError
  | VObj props => Normal (lookup k props)
  | VArr elems =>
    if jsstring_eqb k (lit "length")
    then Normal (VNum (num_of_Z (Z.of_nat (length elems))))
    else Normal VUndefined
  | VStr s =>
    if jsstring_eqb k (lit "length")
    then Normal (VNum (num_of_Z (Z.of_nat (length s))))
    else Normal VUndefined
  | VBool _ | VNum _ => Normal VUndefined
  end.

Fixpoint indexed {A} (i : nat) (l : list A) : list (jsstring * A) :=
  match l with
  | [] => []
  | x :: rest => (decimal (Z.of_nat i), x) :: indexed (S i) rest
  end.

(** Object.entries. *)
Definition Object_entries (v : value) : completion (list (jsstring * value)) :=
  match v with
  | VUndefined | VNull => Throw TypeError
  | VBool _ | VNum _ => Normal []
  | VStr s => Normal (indexed 0 (map (fun c => VStr [c]) s))
  | VArr elems => Normal (indexed 0 elems)
  | VObj props => Normal props
  end.

(** [a - b]: the left operand is converted first. *)
Definition minus (a b : value) : completion num :=
  let? x := ToNumber a in
  let? y := ToNumber b in
  Normal (num_sub x y).

(** Assigning [v] to textContent: the attribute is a nullable string, so
    null and undefined give the empty text, anything else its string, when
    it has one. *)
Definition text_of (v : value) : completion jsstring :=
  match v with
  | VUndefined | VNull => Normal []
  | _ => ToString v
  end.

End Values.

(** ** The page *)

(** A child of the activities container: markup written through innerHTML,
    or a div.activity-card appended by the renderer, with its innerHTML. *)
Inductive child : Type :=
| Markup (html : jsstring)
| ActivityCard (innerHTML : jsstring).

Record option_element : Type := {
  opt_value : jsstring;
  opt_text : jsstring;
  opt_selected : bool;   (* the selected attribute *)
  opt_disabled : bool    (* the disabled attribute *)
}.

Record select_element : Type := {
  options : list option_element;
  selectedIndex : option nat
}.

Record input_element : Type := {
  input_value : jsstring;
  input_default : jsstring   (* the value attribute *)
}.

(** The message banner: its text and the tokens of its class attribute. *)
Record banner : Type := {
  textContent : jsstring;
  classList : list jsstring
}.

Inductive callback : Type :=
| HideMessage.   (* () => messageDiv.classList.add("hidden") *)

Record timer : Type := {
  timer_callback : callback;
  timer_delay : Z   (* milliseconds *)
}.

Inductive http_method : Type := GET | POST | DELETE.

Record request : Type := {
  req_method : http_method;
  req_url : jsstring;
  req_no_store : bool   (* cache: "no-store" *)
}.

Record world : Type := {
  activitiesList : list child;
  activitySelect : select_element;
  emailInput : input_element;
  messageDiv : banner;
  timers : list timer;               (* armed by setTimeout, oldest first *)
  console : list (jsstring * error); (* console.error calls *)
  requests : list request;           (* fetch calls *)
  dialogs : list jsstring;           (* window.confirm prompts *)
  uncaught : list error              (* exceptions that left a handler *)
}.

Definition with_activitiesList (x : list child) (w : world) : world :=
  {| activitiesList := x; activitySelect := activitySelect w;
     emailInput := emailInput w; messageDiv := messageDiv w; timers := timers w;
     console := console w; requests := requests w; dialogs := dialogs w;
     uncaught := uncaught w |}.

Definition with_activitySelect (x : select_element) (w : world) : world :=
  {| activitiesList := activitiesList w; activitySelect := x;
     emailInput := emailInput w; messageDiv := messageDiv w; timers := timers w;
     console := console w; requests := requests w; dialogs := dialogs w;
     uncaught := uncaught w |}.

Definition with_emailInput (x : input_element) (w : world) : world :=
  {| activitiesList := activitiesList w; activitySelect := activitySelect w;
     emailInput := x; messageDiv := messageDiv w; timers := timers w;
     console := console w; requests := requests w; dialogs := dialogs w;
     uncaught := uncaught w |}.

Definition with_messageDiv (x : banner) (w : world) : world :=
  {| activitiesList := activitiesList w; activitySelect := activitySelect w;
     emailInput := emailInput w; messageDiv := x; timers := timers w;
     console := console w; requests := requests w; dialogs := dialogs w;
     uncaught := uncaught w |}.

Definition with_timers (x : list timer) (w : world) : world :=
  {| activitiesList := activitiesList w; activitySelect := activitySelect w;
     emailInput := emailInput w; messageDiv := messageDiv w; timers := x;
     console := console w; requests := requests w; dialogs := dialogs w;
     uncaught := uncaught w |}.

Definition with_console (x : list (jsstring * error)) (w : world) : world :=
  {| activitiesList := activitiesList w; activitySelect := activitySelect w;
     emailInput := emailInput w; messageDiv := messageDiv w; timers := timers w;
     console := x; requests := requests w; dialogs := dialogs w;
     uncaught := uncaught w |}.

Definition with_requests (x : list request) (w : world) : world :=
  {| activitiesList := activitiesList w; activitySelect := activitySelect w;
     emailInput := emailInput w; messageDiv := messageDiv w; timers := timers w;
     console := console w; requests := x; dialogs := dialogs w;
     uncaught := uncaught w |}.

Definition with_dialogs (x : list jsstring) (w : world) : world :=
  {| activitiesList := activitiesList w; activitySelect := activitySelect w;
     emailInput := emailInput w; messageDiv := messageDiv w; timers := timers w;
     console := console w; requests := requests w; dialogs := x;
     uncaught := uncaught w |}.

Definition with_uncaught (x : list error) (w : world) : world :=
  {| activitiesList := activitiesList w; activitySelect := activitySelect w;
     emailInput := emailInput w; messageDiv := messageDiv w; timers := timers w;
     console := console w; requests := requests w; dialogs := dialogs w;
     uncaught := x |}.

(** *** Script steps: state and exceptions *)

Definition M (A : Type) : Type := world -> completion A * world.

Definition ret {A} (a : A) : M A := fun w => (Normal a, w).

Definition bind {A B} (m : M A) (k : A -> M B) : M B :=
  fun w =>
    match m w with
    | (Normal a, w') => k a w'
    | (Throw e, w') => (Throw e, w')
    end.

Declare Scope script_scope.
Delimit Scope script_scope with script.
Notation "x <- m ;; k" := (bind m (fun x => k))
  (at level 61, m at next level, right associativity) : script_scope.
Notation "m ;; k" := (bind m (fun _ => k))
  (at level 61, right associativity) : script_scope.
Local Open Scope script_scope.

(** A pure computation that may throw. *)
Definition eval {A} (c : completion A) : M A := fun w => (c, w).

Definition gets {A} (f : world -> A) : M A := fun w => (Normal (f w), w).

Definition modify (f : world -> world) : M unit := fun w => (Normal tt, f w).

(** try { body } catch (error) { handler error } *)
Definition try_catch {A} (body : M A) (handler : error -> M A) : M A :=
  fun w =>
    match body w with
    | (Normal a, w') => (Normal a, w')
    | (Throw e, w') => handler e w'
    end.

(** [xs.forEach(f)]: stops at the first exception. *)
Fixpoint forEach {A} (xs : list A) (f : A -> M unit) : M unit :=
  match xs with
  | [] => ret tt
  | x :: rest => f x ;; forEach rest f
  end.

(** A handler run as an event listener: an exception that leaves it is
    reported and the page keeps what was done before it. *)
Definition run (m : M unit) (w : world) : world :=
  match m w with
  | (Normal _, w') => w'
  | (Throw e, w') => with_uncaught (uncaught w' ++ [e]) w'
  end.

(** *** Elements *)

Definition quoted (s : jsstring) : jsstring := 34 :: s ++ [34].
Definition nl : jsstring := [10].
Definition indent (n : nat) : jsstring := repeat 32 n.

Definition hidden_class : jsstring := lit "hidden".

Definition is_hidden (b : banner) : bool :=
  existsb (jsstring_eqb hidden_class) (classList b).

(** [el.className = c] for a single class name [c]. *)
Definition set_className (c : jsstring) (b : banner) : banner :=
  {| textContent := textContent b; classList := [c] |}.

(** [el.classList.remove(c)] *)
Definition classList_remove (c : jsstring) (b : banner) : banner :=
  {| textContent := textContent b;
     classList := filter (fun t => negb (jsstring_eqb c t)) (classList b) |}.

(** [el.classList.add(c)] *)
Definition classList_add (c : jsstring) (b : banner) : banner :=
  {| textContent := textContent b;
     classList := if existsb (jsstring_eqb c) (classList b)
                  then classList b else classList b ++ [c] |}.

Definition set_textContent (t : jsstring) (b : banner) : banner :=
  {| textContent := t; classList := classList b |}.

Fixpoint first_enabled (i : nat) (opts : list option_element) : option nat :=
  match opts with
  | [] => None
  | o :: rest => if opt_disabled o then first_enabled (S i) rest else Some i
  end.

Fixpoint last_selected (i : nat) (opts : list option_element) : option nat :=
  match opts with
  | [] => None
  | o :: rest =>
    match last_selected (S i) rest with
    | Some j => Some j
    | None => if opt_selected o then Some i else None
    end
  end.

(** The option a drop-down list shows when its options are (re)set: the
    last one carrying the selected attribute, else the first one that is
    not disabled. *)
Definition default_selection (opts : list option_element) : option nat :=
  match last_selected 0 opts with
  | Some i => Some i
  | None => first_enabled 0 opts
  end.

Definition select_value (s : select_element) : jsstring :=
  match selectedIndex s with
  | Some i =>
    match nth_error (options s) i with
    | Some o => opt_value o
    | None => []
    end
  | None => []
  end.

(** The option of line 15: empty value, text "-- Select an activity --". *)
Definition placeholder : option_element :=
  {| opt_value := []; opt_text := lit "-- Select an activity --";
     opt_selected := false; opt_disabled := false |}.

Definition placeholder_only : select_element :=
  {| options := [placeholder]; selectedIndex := Some 0%nat |}.

(** [select.appendChild(option)]: the option is added last; a list that
    showed nothing shows the first option that is not disabled. *)
Definition select_append (o : option_element) (s : select_element) : select_element :=
  let opts := options s ++ [o] in
  {| options := opts;
     selectedIndex := match selectedIndex s with
                      | Some i => Some i
                      | None => first_enabled 0 opts
                      end |}.

(** [signupForm.reset()]: the form's two fields, the email input and the
    activity list, go back to their defaults. *)
Definition form_reset (w : world) : world :=
  with_activitySelect
    {| options := options (activitySelect w);
       selectedIndex := default_selection (options (activitySelect w)) |}
    (with_emailInput
       {| input_value := input_default (emailInput w);
          input_default := input_default (emailInput w) |} w).

(** Running a timer's callback. *)
Definition fire (t : timer) (w : world) : world :=
  match timer_callback t with
  | HideMessage => with_messageDiv (classList_add hidden_class (messageDiv w)) w
  end.

Definition setTimeout (c : callback) (ms : Z) : M unit :=
  modify (fun w => with_timers (timers w ++ [{| timer_callback := c; timer_delay := ms |}]) w).

Definition console_error (label : jsstring) (e : error) : M unit :=
  modify (fun w => with_console (console w ++ [(label, e)]) w).

Definition update_message (f : banner -> banner) : M unit :=
  modify (fun w => with_messageDiv (f (messageDiv w)) w).

(** ** The script *)

Section Script.
Context {P : Platform}.

(** What a request comes back with: the status line and the body, [None]
    when the body is not JSON. *)
Record response : Type := {
  status : Z;
  body : option value
}.

(** [response.ok] *)
Definition ok (r : response) : bool := (200 <=? status r) && (status r <=? 299).

(** [await response.json()] *)
Definition json (r : response) : completion value :=
  match body r with
  | Some v => Normal v
  | None => Throw SyntaxError
  end.

(** How an awaited [fetch] ends: the promise is rejected (no connection),
    or a response arrives. *)
Inductive fetch_outcome : Type :=
| Rejected
| Responded (r : response).

(** [await fetch(...)]: the request goes out, then the outcome decides. *)
Definition fetch (rq : request) (o : fetch_outcome) : M response :=
  modify (fun w => with_requests (requests w ++ [rq]) w) ;;
  eval (match o with
        | Rejected => Throw NetworkFailure
        | Responded r => Normal r
        end).

(** [label.charAt(0)] *)
Definition charAt0 (s : jsstring) : jsstring := firstn 1 s.

(** One <li> of the participants list (line 32); the template's
    expressions are evaluated left to right, [encodeURIComponent(p)]
    converting [p] to a string first. [p.charAt] exists on strings only,
    so where [${label}] is reached the label is that string. *)
Definition participant_item (name : jsstring) (p : value) : completion jsstring :=
  let? activity := URI.encodeURIComponent name in
  let? text := ToString p in
  let? email := URI.encodeURIComponent text in
  let? avatar := match p with
                 | VStr label => Normal (toUpperCase (charAt0 label))
                 | _ => Throw TypeError
                 end in
  Normal (lit "<li class=" ++ quoted (lit "participant-item")
          ++ lit " data-activity=" ++ quoted activity
          ++ lit " data-email=" ++ quoted email
          ++ lit "><span class=" ++ quoted (lit "avatar") ++ lit ">" ++ avatar
          ++ lit "</span><span class=" ++ quoted (lit "participant-label") ++ lit ">"
          ++ text
          ++ lit "</span><button class=" ++ quoted (lit "participant-remove")
          ++ lit " title=" ++ quoted (lit "Remove participant")
          ++ lit ">&times;</button></li>").

(** [participants.forEach((p) => { participantsHtml += ... })] *)
Fixpoint append_items (name : jsstring) (participantsHtml : jsstring)
                      (ps : list value) : completion jsstring :=
  match ps with
  | [] => Normal participantsHtml
  | p :: rest =>
    let? item := participant_item name p in
    append_items name (participantsHtml ++ item) rest
  end.

Definition no_participants : jsstring :=
  lit "<p class=" ++ quoted (lit "muted") ++ lit ">No participants yet "
  ++ [8212] ++ lit " be the first!</p>".

(** Lines 25-37. Only an array has [forEach]. *)
Definition participants_markup (name : jsstring) (details : value) : completion jsstring :=
  let? participants := get details (lit "participants") in
  let? some := (if truthy participants
                then let? n := get participants (lit "length") in Normal (truthy n)
                else Normal false) in
  if some then
    match participants with
    | VArr ps =>
      let? items := append_items name
                      (lit "<ul class=" ++ quoted (lit "participants-list") ++ lit ">") ps in
      Normal (items ++ lit "</ul>")
    | _ => Throw TypeError
    end
  else Normal no_participants.

(** The template of lines 39-48. *)
Definition card_template (name description schedule spotsLeft participantsHtml : jsstring)
  : jsstring :=
  nl ++ indent 10 ++ lit "<h4>" ++ name ++ lit "</h4>"
  ++ nl ++ indent 10 ++ lit "<p>" ++ description ++ lit "</p>"
  ++ nl ++ indent 10 ++ lit "<p><strong>Schedule:</strong> " ++ schedule ++ lit "</p>"
  ++ nl ++ indent 10 ++ lit "<p><strong>Availability:</strong> " ++ spotsLeft
  ++ lit " spots left</p>"
  ++ nl ++ indent 10 ++ lit "<div class=" ++ quoted (lit "participants") ++ lit ">"
  ++ nl ++ indent 12 ++ lit "<h5>Participants</h5>"
  ++ nl ++ indent 12 ++ participantsHtml
  ++ nl ++ indent 10 ++ lit "</div>"
  ++ nl ++ indent 8.

(** Lines 22-48 for one entry: the innerHTML of its card. Each expression
    of the template is converted to a string before the next one is
    evaluated. *)
Definition activity_card (name : jsstring) (details : value) : completion jsstring :=
  let? max_participants := get details (lit "max_participants") in
  let? participants := get details (lit "participants") in
  let? len := get participants (lit "length") in
  let? spotsLeft := minus max_participants len in
  let? participantsHtml := participants_markup name details in
  let? description := get details (lit "description") in
  let? description_text := ToString description in
  let? schedule := get details (lit "schedule") in
  let? schedule_text := ToString schedule in
  Normal (card_template name description_text schedule_text
            (num_to_string spotsLeft) participantsHtml).

Definition activity_option (name : jsstring) : option_element :=
  {| opt_value := name; opt_text := name; opt_selected := false; opt_disabled := false |}.

(** The body of the forEach of line 18. *)
Definition render_activity (entry : jsstring * value) : M unit :=
  let (name, details) := entry in
  card <- eval (activity_card name details) ;;
  modify (fun w => with_activitiesList (activitiesList w ++ [ActivityCard card]) w) ;;
  modify (fun w => with_activitySelect (select_append (activity_option name) (activitySelect w)) w).

Definition activities_request : request :=
  {| req_method := GET; req_url := lit "/activities"; req_no_store := true |}.

Definition load_failure : jsstring :=
  lit "<p>Failed to load activities. Please try again later.</p>".

(** [fetchActivities] (lines 8-62). *)
Definition fetchActivities (o : fetch_outcome) : M unit :=
  try_catch
    (response <- fetch activities_request o ;;
     activities <- eval (json response) ;;
     modify (with_activitiesList []) ;;
     modify (with_activitySelect placeholder_only) ;;
     entries <- eval (Object_entries activities) ;;
     forEach entries render_activity)
    (fun error =>
       modify (with_activitiesList [Markup load_failure]) ;;
       console_error (lit "Error fetching activities:") error).

Definition signup_request (activity email : jsstring) : request :=
  {| req_method := POST;
     req_url := lit "/activities/" ++ activity ++ lit "/signup?email=" ++ email;
     req_no_store := false |}.

(** [a || b] *)
Definition or_else (a b : value) : value := if truthy a then a else b.

(** The submit listener of the sign-up form (lines 65-106). [signup] is
    how the POST ends, [refresh] how the GET of the re-render ends. *)
Definition on_submit (signup refresh : fetch_outcome) : M unit :=
  email <- gets (fun w => input_value (emailInput w)) ;;
  activity <- gets (fun w => select_value (activitySelect w)) ;;
  try_catch
    (a <- eval (URI.encodeURIComponent activity) ;;
     e <- eval (URI.encodeURIComponent email) ;;
     response <- fetch (signup_request a e) signup ;;
     result <- eval (json response) ;;
     (if ok response then
        message <- eval (get result (lit "message")) ;;
        text <- eval (text_of message) ;;
        update_message (set_textContent text) ;;
        update_message (set_className (lit "success")) ;;
        modify form_reset ;;
        fetchActivities refresh
      else
        detail <- eval (get result (lit "detail")) ;;
        text <- eval (text_of (or_else detail (VStr (lit "An error occurred")))) ;;
        update_message (set_textContent text) ;;
        update_message (set_className (lit "error"))) ;;
     update_message (classList_remove hidden_class) ;;
     setTimeout HideMessage 5000)
    (fun error =>
       update_message (set_textContent (lit "Failed to sign up. Please try again.")) ;;
       update_message (set_className (lit "error")) ;;
       update_message (classList_remove hidden_class) ;;
       console_error (lit "Error signing up:") error).

(** What the click listener learns from the event: whether the target is
    in a .participant-remove control, whether that control is in a
    .participant-item row, and the row's data-activity and data-email
    attributes, [None] for an attribute that is not there. *)
Inductive click_target : Type :=
| Elsewhere
| RemoveOutsideRow
| RemoveInRow (data_activity data_email : option jsstring).

(** [item.dataset.x] handed to a function that takes a string. *)
Definition dataset_string (d : option jsstring) : jsstring :=
  match d with
  | Some s => s
  | None => lit "undefined"
  end.

Definition removal_request (activity email : jsstring) : request :=
  {| req_method := DELETE;
     req_url := lit "/activities/" ++ activity ++ lit "/participants?email=" ++ email;
     req_no_store := true |}.

Definition confirm_prompt (email activityName : jsstring) : jsstring :=
  lit "Unregister " ++ email ++ lit " from " ++ activityName ++ lit "?".

(** [window.confirm(text)], answered by [sure]. *)
Definition confirm (text : jsstring) (sure : bool) : M bool :=
  modify (fun w => with_dialogs (dialogs w ++ [text]) w) ;; ret sure.

Definition empty (s : jsstring) : bool := jsstring_eqb s [].

(** The click listener of the activities container (lines 112-154).
    [sure] is the user's answer to the confirmation, [removal] how the
    DELETE ends, [refresh] how the GET of the re-render ends. *)
Definition on_click (target : click_target) (sure : bool)
                    (removal refresh : fetch_outcome) : M unit :=
  match target with
  | Elsewhere => ret tt
  | RemoveOutsideRow => ret tt
  | RemoveInRow data_activity data_email =>
    activityName <- eval (URI.decodeURIComponent (dataset_string data_activity)) ;;
    email <- eval (URI.decodeURIComponent (dataset_string data_email)) ;;
    if empty activityName || empty email then ret tt
    else
      sure <- confirm (confirm_prompt email activityName) sure ;;
      if negb sure then ret tt
      else
        try_catch
          (a <- eval (URI.encodeURIComponent activityName) ;;
           e <- eval (URI.encodeURIComponent email) ;;
           resp <- fetch (removal_request a e) removal ;;
           resJson <- eval (json resp) ;;
           (if ok resp then
              message <- eval (get resJson (lit "message")) ;;
              text <- eval (text_of message) ;;
              update_message (set_textContent text) ;;
              update_message (set_className (lit "success")) ;;
              update_message (classList_remove hidden_class) ;;
              fetchActivities refresh
            else
              detail <- eval (get resJson (lit "detail")) ;;
              text <- eval (text_of
                              (or_else detail (VStr (lit "Failed to remove participant")))) ;;
              update_message (set_textContent text) ;;
              update_message (set_className (lit "error")) ;;
              update_message (classList_remove hidden_class)) ;;
           setTimeout HideMessage 5000)
          (fun err =>
             console_error (lit "Failed to remove participant:") err ;;
             update_message (set_textContent (lit "Failed to remove participant")) ;;
             update_message (set_className (lit "error")) ;;
             update_message (classList_remove hidden_class) ;;
             setTimeout HideMessage 5000)
  end.

End Script.

(** ** Vocabulary of the statements *)

Section Vocabulary.
Context {P : Platform}.

(** An activity as the API documents it. *)
Record activity : Type := {
  description : jsstring;
  schedule : jsstring;
  max_participants : Z;
  participants : list jsstring
}.

(** The parsed JSON of an activity and of an activity map, the entries of
    the map in the order in which the engine enumerates them. *)
Definition activity_value (a : activity) : value :=
  VObj [(lit "description", VStr (description a));
        (lit "schedule", VStr (schedule a));
        (lit "max_participants", VNum (num_of_Z (max_participants a)));
        (lit "participants", VArr (map VStr (participants a)))].

Definition activities_value (acts : list (jsstring * activity)) : value :=
  VObj (map (fun entry => (fst entry, activity_value (snd entry))) acts).




(** What the page has to show, written out on its own: the markup is
    given here character for character and owes nothing to the
    definitions of the renderer above. *)









(** The participants field of [details] is absent or null. *)
Definition participants_missing (details : value) : bool :=
  match get details (lit "participants") with
  | Normal VUndefined | Normal VNull => true
  | _ => false
  end.

(** The submit listener gets as far as sending its request: both form
    fields can be percent-encoded. *)
Definition signup_sent (w : world) : bool :=
  match URI.encodeURIComponent (select_value (activitySelect w)),
        URI.encodeURIComponent (input_value (emailInput w)) with
  | Normal _, Normal _ => true
  | _, _ => false
  end.

(** The click listener gets as far as the confirmation and, once the user
    agrees, sends its request. *)
Definition removal_sent (target : click_target) : bool :=
  match target with
  | RemoveInRow data_activity data_email =>
    match URI.decodeURIComponent (dataset_string data_activity),
          URI.decodeURIComponent (dataset_string data_email) with
    | Normal activityName, Normal email =>
      negb (empty activityName || empty email)
      && match URI.encodeURIComponent activityName, URI.encodeURIComponent email with
         | Normal _, Normal _ => true
         | _, _ => false
         end
    | _, _ => false
    end
  | _ => false
  end.

(** What the message or the detail of a reply is shown as. *)
Definition shown_as (v : value) : option jsstring :=
  match text_of v with
  | Normal text => Some text
  | Throw _ => None
  end.

(** The ways a sign-up or removal request can end for the script: the
    success branch runs and shows the text of the message; the failure
    branch runs and shows the text of a truthy detail, or finds none; or an
    exception reaches the catch block (the request is rejected, the body
    is not JSON or is null, or the message or detail to show has no
    string). *)
Inductive reply : Type :=
| Success (message : jsstring)
| Failure (detail : option jsstring)
| Exception.

Definition reply_of (o : fetch_outcome) : reply :=
  match o with
  | Rejected => Exception
  | Responded r =>
    match body r with
    | None => Exception
    | Some v =>
      if ok r then
        match get v (lit "message") with
        | Normal m =>
          match shown_as m with
          | Some text => Success text
          | None => Exception
          end
        | Throw _ => Exception
        end
      else
        match get v (lit "detail") with
        | Normal d =>
          if truthy d then
            match shown_as d with
            | Some text => Failure (Some text)
            | None => Exception
            end
          else Failure None
        | Throw _ => Exception
        end
    end
  end.

Definition hide_after_5s : timer := {| timer_callback := HideMessage; timer_delay := 5000 |}.

(** From [w] to [w'] nothing changed but the activities container and the
    activity list of the form. *)
Definition rendering_only (w w' : world) : Prop :=
  emailInput w' = emailInput w /\ messageDiv w' = messageDiv w
  /\ timers w' = timers w /\ console w' = console w
  /\ requests w' = requests w /\ dialogs w' = dialogs w
  /\ uncaught w' = uncaught w.

End Vocabulary.

(** *** Sample pages and replies *)

(** The page before anything is loaded: banner hidden, nothing pending. *)
Definition fresh_page : world :=
  {| activitiesList := [Markup (lit "<p>Loading activities...</p>")];
     activitySelect := placeholder_only;
     emailInput := {| input_value := []; input_default := [] |};
     messageDiv := {| textContent := []; classList := [hidden_class] |};
     timers := []; console := []; requests := []; dialogs := []; uncaught := [] |}.

(** A page on which "Chess Club" was loaded and the form is filled in. *)
Definition loaded_page : world :=
  {| activitiesList := [ActivityCard (lit "Chess Club")];
     activitySelect :=
       {| options := [placeholder; activity_option (lit "Chess Club")];
          selectedIndex := Some 1%nat |};
     emailInput := {| input_value := lit "amy@mergington.edu"; input_default := [] |};
     messageDiv := {| textContent := []; classList := [hidden_class] |};
     timers := []; console := []; requests := []; dialogs := []; uncaught := [] |}.

Definition chess_club : activity :=
  {| description := lit "Learn strategies";
     schedule := lit "Fridays";
     max_participants := 12;
     participants := [lit "amy@mergington.edu"; lit "bo+1@mergington.edu"] |}.

(** HTTP 400 with the body {} (no detail). *)
Definition bad_request_no_detail : fetch_outcome :=
  Responded {| status := 400; body := Some (VObj []) |}.

(** HTTP 400 with the body {"detail": "Already registered"}. *)
Definition already_registered : fetch_outcome :=
  Responded {| status := 400;
               body := Some (VObj [(lit "detail", VStr (lit "Already registered"))]) |}.

(** HTTP 200 with the body {"message": "Unregistered amy@mergington.edu"}. *)
Definition unregistered : fetch_outcome :=
  Responded {| status := 200;
               body := Some (VObj [(lit "message",
                                    VStr (lit "Unregistered amy@mergington.edu"))]) |}.

(** HTTP 200 with the chess club as the only activity. *)
Definition chess_only : fetch_outcome :=
  Responded {| status := 200; body := Some (activities_value [(lit "Chess Club", chess_club)]) |}.

(** The remove control of the row of amy@mergington.edu in "Chess Club". *)
Definition amy_row : click_target :=
  RemoveInRow (Some (lit "Chess%20Club")) (Some (lit "amy%40mergington.edu")).

(** A row that has its data-email attribute but no data-activity. *)
Definition row_without_activity : click_target :=
  RemoveInRow None (Some (lit "amy%40mergington.edu")).

(** *** Vocabulary of the further properties *)

(** Every code unit of the string is in range. *)
Definition in_range (s : jsstring) : bool := forallb code_unit s.

(** A character that cannot end or split a segment of a URL: one of the
    unescaped set, or the percent sign of an escape. *)
Definition url_safe (c : Z) : bool := URI.uriUnescaped c || (c =? 37).

Definition percent_free (s : jsstring) : bool := forallb (fun c => negb (c =? 37)) s.

Section MoreVocabulary.
Context {P : Platform}.

Definition is_string (v : value) : bool :=
  match v with
  | VStr _ => true
  | _ => false
  end.

(** The requests a sign-up or a removal is followed by: the list is
    fetched again after a success only. *)
Definition refresh_requests (o : fetch_outcome) : list request :=
  match reply_of o with
  | Success _ => [activities_request]
  | _ => []
  end.

End MoreVocabulary.

(** A page whose email field holds an unpaired surrogate. *)
Definition unencodable_page : world :=
  with_emailInput {| input_value := [0xD800]; input_default := [] |} loaded_page.

(** * Properties *)

(** ** Percent-encoding *)

Ltac arith := Z.div_mod_to_equations; lia.

(** Settle every integer comparison of the goal that arithmetic decides. *)
Ltac settle_tests :=
  repeat match goal with
  | |- context [Z.ltb ?a ?b] =>
    first [ replace (Z.ltb a b) with true by (symmetry; apply Z.ltb_lt; arith)
          | replace (Z.ltb a b) with false by (symmetry; apply Z.ltb_ge; arith) ]
  | |- context [Z.leb ?a ?b] =>
    first [ replace (Z.leb a b) with true by (symmetry; apply Z.leb_le; arith)
          | replace (Z.leb a b) with false by (symmetry; apply Z.leb_gt; arith) ]
  | |- context [Z.eqb ?a ?b] =>
    first [ replace (Z.eqb a b) with true by (symmetry; apply Z.eqb_eq; arith)
          | replace (Z.eqb a b) with false by (symmetry; apply Z.eqb_neq; arith) ]
  end.

(** Turn the comparisons that hold by hypothesis into inequalities. *)
Ltac tests_to_props :=
  repeat match goal with
  | H : _ && _ = true |- _ => apply andb_true_iff in H; destruct H
  | H : negb _ = true |- _ => apply negb_true_iff in H
  | H : Z.leb _ _ = true |- _ => apply Z.leb_le in H
  | H : Z.leb _ _ = false |- _ => apply Z.leb_gt in H
  | H : Z.ltb _ _ = true |- _ => apply Z.ltb_lt in H
  | H : Z.ltb _ _ = false |- _ => apply Z.ltb_ge in H
  | H : Z.eqb _ _ = true |- _ => apply Z.eqb_eq in H
  | H : Z.eqb _ _ = false |- _ => apply Z.eqb_neq in H
  end.

Lemma hex_value_hex_digit (d : Z) :
  0 <= d < 16 -> URI.hex_value (URI.hex_digit d) = Some d.
Proof.
  intros Hd. unfold URI.hex_value, URI.hex_digit, URI.is_digit.
  destruct (Z.ltb_spec d 10).
  - settle_tests. cbn [andb]. f_equal. lia.
  - settle_tests. cbn [andb]. f_equal. lia.
Qed.

Lemma unescape_percent_octet (b : Z) (rest : jsstring) :
  0 <= b < 256 ->
  URI.unescape (URI.percent_octet b ++ rest)
  = let? ts := URI.unescape rest in Normal (URI.Escaped b :: ts).
Proof.
  intros Hb. unfold URI.percent_octet.
  change (URI.unescape ([37; URI.hex_digit (b / 16); URI.hex_digit (b mod 16)] ++ rest))
    with (match URI.hex_value (URI.hex_digit (b / 16)),
                URI.hex_value (URI.hex_digit (b mod 16)) with
          | Some x, Some y =>
            let? ts := URI.unescape rest in Normal (URI.Escaped (16 * x + y) :: ts)
          | _, _ => Throw URIError
          end).
  rewrite !hex_value_hex_digit by arith.
  replace (16 * (b / 16) + b mod 16) with b by arith.
  reflexivity.
Qed.

Lemma decode_plain (c : Z) (e : jsstring) :
  c <> 37 ->
  URI.decodeURIComponent (c :: e)
  = let? r := URI.decodeURIComponent e in Normal (c :: r).
Proof.
  intros Hc. unfold URI.decodeURIComponent. cbn [URI.unescape].
  settle_tests. destruct (URI.unescape e); reflexivity.
Qed.

Lemma unescape_escape_code_point (cp : Z) (e : jsstring) :
  0 <= cp <= 0x10FFFF ->
  URI.unescape (URI.escape_code_point cp ++ e)
  = let? ts := URI.unescape e in Normal (map URI.Escaped (URI.utf8_octets cp) ++ ts).
Proof.
  intros Hcp. unfold URI.escape_code_point, URI.utf8_octets.
  destruct (Z.ltb_spec cp 0x80); [|destruct (Z.ltb_spec cp 0x800);
    [|destruct (Z.ltb_spec cp 0x10000)]];
    cbn [flat_map map]; rewrite <- ?app_assoc; cbn [app];
    rewrite ?unescape_percent_octet by arith;
    destruct (URI.unescape e); reflexivity.
Qed.

Lemma assemble_utf8_octets (cp : Z) (ts : list URI.token) :
  URI.scalar cp ->
  URI.assemble (map URI.Escaped (URI.utf8_octets cp) ++ ts)
  = let? r := URI.assemble ts in Normal (URI.UTF16EncodeCodePoint cp ++ r).
Proof.
  intros [Hcp Hs]. unfold URI.utf8_octets.
  destruct (Z.ltb_spec cp 0x80); [|destruct (Z.ltb_spec cp 0x800);
    [|destruct (Z.ltb_spec cp 0x10000)]];
    cbn [map app URI.assemble]; unfold URI.is_continuation, URI.UTF16EncodeCodePoint.
  - settle_tests. reflexivity.
  - settle_tests. cbn [andb negb].
    replace ((192 + cp / 64 - 192) * 64 + (128 + cp mod 64 - 128)) with cp by arith.
    settle_tests. reflexivity.
  - settle_tests. cbn [andb negb].
    replace ((224 + cp / 4096 - 224) * 4096 + (128 + (cp / 64) mod 64 - 128) * 64
             + (128 + cp mod 64 - 128)) with cp by arith.
    settle_tests.
    destruct (Z.leb_spec 55296 cp), (Z.leb_spec cp 57343); cbn [andb negb];
      solve [reflexivity | exfalso; lia].
  - settle_tests. cbn [andb negb].
    replace ((240 + cp / 262144 - 240) * 262144 + (128 + (cp / 4096) mod 64 - 128) * 4096
             + (128 + (cp / 64) mod 64 - 128) * 64 + (128 + cp mod 64 - 128))
      with cp by arith.
    settle_tests. reflexivity.
Qed.

Lemma decode_escape_code_point (cp : Z) (e : jsstring) :
  URI.scalar cp ->
  URI.decodeURIComponent (URI.escape_code_point cp ++ e)
  = let? r := URI.decodeURIComponent e in Normal (URI.UTF16EncodeCodePoint cp ++ r).
Proof.
  intros Hs. unfold URI.decodeURIComponent.
  rewrite unescape_escape_code_point by (destruct Hs; assumption).
  destruct (URI.unescape e) as [ts|]; cbn [cbind]; [|reflexivity].
  now apply assemble_utf8_octets.
Qed.

Lemma uriUnescaped_range (c : Z) :
  URI.uriUnescaped c = true -> 33 <= c <= 126 /\ c <> 37 /\ c <> 34 /\ c <> 38.
Proof.
  unfold URI.uriUnescaped, URI.is_alpha, URI.is_digit, URI.is_mark.
  cbn [existsb]. intros H.
  repeat match type of H with
  | context [Z.eqb c ?k] => destruct (Z.eqb_spec c k); [subst c; lia|]
  end.
  rewrite !orb_false_r in H.
  repeat (apply orb_true_iff in H; destruct H as [H|H]); tests_to_props; lia.
Qed.

Lemma hex_digit_safe (d : Z) :
  0 <= d < 16 -> URI.attribute_safe (URI.hex_digit d) = true.
Proof.
  intros Hd. unfold URI.attribute_safe, URI.hex_digit.
  destruct (Z.ltb_spec d 10); settle_tests; reflexivity.
Qed.

Lemma percent_octet_safe (b : Z) :
  0 <= b < 256 -> forallb URI.attribute_safe (URI.percent_octet b) = true.
Proof.
  intros Hb. unfold URI.percent_octet. cbn [forallb].
  rewrite !hex_digit_safe by arith. reflexivity.
Qed.

Lemma escape_code_point_safe (cp : Z) :
  0 <= cp <= 0x10FFFF -> forallb URI.attribute_safe (URI.escape_code_point cp) = true.
Proof.
  intros Hcp. unfold URI.escape_code_point, URI.utf8_octets.
  destruct (Z.ltb_spec cp 0x80); [|destruct (Z.ltb_spec cp 0x800);
    [|destruct (Z.ltb_spec cp 0x10000)]];
    cbn [flat_map]; rewrite ?forallb_app, ?percent_octet_safe by arith; reflexivity.
Qed.

Lemma surrogate_pair_scalar (c d : Z) :
  URI.is_leading_surrogate c = true -> URI.is_trailing_surrogate d = true ->
  URI.scalar (URI.pair_code_point c d)
  /\ URI.UTF16EncodeCodePoint (URI.pair_code_point c d) = [c; d].
Proof.
  unfold URI.is_leading_surrogate, URI.is_trailing_surrogate, URI.pair_code_point,
    URI.UTF16EncodeCodePoint, URI.scalar.
  intros Hc Hd. tests_to_props. split; [lia|].
  settle_tests. f_equal; [|f_equal]; arith.
Qed.

Lemma encode_then_decode (n : nat) (s : jsstring) :
  (length s <= n)%nat -> URI.well_formed s = true ->
  exists e, URI.encodeURIComponent s = Normal e
            /\ forallb URI.attribute_safe e = true
            /\ URI.decodeURIComponent e = Normal s.
Proof.
  revert s. induction n as [|n IH]; intros s Hlen Hwf.
  - destruct s; [|cbn in Hlen; lia]. exists []. repeat split.
  - destruct s as [|c rest]; [exists []; repeat split|].
    cbn [URI.well_formed] in Hwf. apply andb_true_iff in Hwf. destruct Hwf as [Hc Hwf].
    cbn [URI.encodeURIComponent]. cbn [length] in Hlen.
    destruct (URI.uriUnescaped c) eqn:Hu.
    { destruct (uriUnescaped_range c Hu) as (Hr & H37 & H34 & H38).
      assert (Hl : URI.is_leading_surrogate c = false)
        by (unfold URI.is_leading_surrogate; settle_tests; reflexivity).
      rewrite Hl in Hwf. apply andb_true_iff in Hwf. destruct Hwf as [_ Hwf].
      destruct (IH rest) as (e & He & Hsafe & Hdec); [lia|assumption|].
      rewrite He. exists (c :: e). cbn [cbind forallb]. repeat split.
      - rewrite Hsafe. unfold URI.attribute_safe. settle_tests. reflexivity.
      - rewrite decode_plain by assumption. rewrite Hdec. reflexivity. }
    destruct (URI.is_leading_surrogate c) eqn:Hl.
    { assert (Ht : URI.is_trailing_surrogate c = false).
      { unfold URI.is_leading_surrogate, URI.is_trailing_surrogate in *.
        tests_to_props. settle_tests. reflexivity. }
      rewrite Ht. destruct rest as [|d rest']; [discriminate|].
      apply andb_true_iff in Hwf. destruct Hwf as [Hd Hwf]. rewrite Hd.
      destruct (surrogate_pair_scalar c d Hl Hd) as [Hs Hpair].
      cbn [length] in Hlen.
      destruct (IH rest') as (e & He & Hsafe & Hdec); [lia|assumption|].
      rewrite He. eexists. cbn [cbind]. repeat split.
      - rewrite forallb_app, Hsafe, escape_code_point_safe by (destruct Hs; assumption).
        reflexivity.
      - rewrite decode_escape_code_point by assumption.
        rewrite Hdec, Hpair. reflexivity. }
    apply andb_true_iff in Hwf. destruct Hwf as [Ht Hwf].
    apply negb_true_iff in Ht. rewrite Ht.
    assert (Hs : URI.scalar c).
    { unfold URI.is_leading_surrogate, URI.is_trailing_surrogate, code_unit, URI.scalar in *.
      apply andb_true_iff in Hc. destruct Hc as [Hc0 Hc1]. tests_to_props.
      split; [lia|].
      intros [Hlo Hhi].
      destruct (Z.leb_spec 55296 c), (Z.leb_spec c 56319), (Z.leb_spec 56320 c),
        (Z.leb_spec c 57343); cbn in Hl, Ht; try discriminate; lia. }
    destruct (IH rest) as (e & He & Hsafe & Hdec); [lia|assumption|].
    rewrite He. eexists. cbn [cbind]. repeat split.
    + rewrite forallb_app, Hsafe, escape_code_point_safe by (destruct Hs; assumption).
      reflexivity.
    + rewrite decode_escape_code_point by assumption.
      rewrite Hdec. unfold URI.UTF16EncodeCodePoint.
      unfold code_unit in Hc. tests_to_props. settle_tests. reflexivity.
Qed.

(** ** The renderer *)

Section Renderer.
Context {P : Platform}.

Lemma jsstring_eqb_eq (a b : jsstring) : jsstring_eqb a b = true <-> a = b.
Proof.
  revert b. induction a as [|x a IH]; intros [|y b]; cbn; split; intros H;
    try reflexivity; try discriminate.
  - apply andb_true_iff in H. destruct H as [Hx Ha].
    apply Z.eqb_eq in Hx. apply IH in Ha. now subst.
  - injection H as -> ->. rewrite Z.eqb_refl. now apply IH.
Qed.

Lemma rendering_only_refl (w : world) : rendering_only w w.
Proof. repeat split. Qed.

Lemma rendering_only_trans (w1 w2 w3 : world) :
  rendering_only w1 w2 -> rendering_only w2 w3 -> rendering_only w1 w3.
Proof.
  unfold rendering_only. intros (A1 & A2 & A3 & A4 & A5 & A6 & A7)
    (B1 & B2 & B3 & B4 & B5 & B6 & B7).
  repeat split; congruence.
Qed.

(** One entry either throws and leaves the page alone, or appends its card
    and its option. *)
Lemma render_activity_cases (entry : jsstring * value) (w : world) :
  (exists e, activity_card (fst entry) (snd entry) = Throw e
             /\ render_activity entry w = (Throw e, w))
  \/ (exists card w',
        activity_card (fst entry) (snd entry) = Normal card
        /\ render_activity entry w = (Normal tt, w')
        /\ activitiesList w' = activitiesList w ++ [ActivityCard card]
        /\ options (activitySelect w')
           = options (activitySelect w) ++ [activity_option (fst entry)]
        /\ rendering_only w w').
Proof.
  destruct entry as [name details]. cbn [fst snd].
  unfold render_activity, bind, eval, modify.
  destruct (activity_card name details) as [card|e].
  - right. eexists _, _. repeat split.
  - left. exists e. split; reflexivity.
Qed.

Lemma forEach_cons {A} (x : A) (xs : list A) (f : A -> M unit) (w : world) :
  forEach (x :: xs) f w
  = match f x w with
    | (Normal _, w') => forEach xs f w'
    | (Throw e, w') => (Throw e, w')
    end.
Proof. reflexivity. Qed.

(** The loop over the entries: all cards are appended, or it stops at the
    first entry that throws. *)
Lemma forEach_render_cases (entries : list (jsstring * value)) (w : world) :
  (exists e w', forEach entries render_activity w = (Throw e, w')
                /\ rendering_only w w'
                /\ Exists (fun entry => activity_card (fst entry) (snd entry) = Throw e)
                          entries)
  \/ (exists cards w',
        forEach entries render_activity w = (Normal tt, w')
        /\ Forall2 (fun entry card => activity_card (fst entry) (snd entry) = Normal card)
                   entries cards
        /\ activitiesList w' = activitiesList w ++ map ActivityCard cards
        /\ options (activitySelect w')
           = options (activitySelect w) ++ map (fun entry => activity_option (fst entry)) entries
        /\ rendering_only w w').
Proof.
  revert w. induction entries as [|entry rest IH]; intros w.
  - right. exists [], w. cbn. rewrite !app_nil_r.
    split; [reflexivity|]. split; [constructor|].
    split; [reflexivity|]. split; [reflexivity|]. apply rendering_only_refl.
  - rewrite !forEach_cons.
    destruct (render_activity_cases entry w)
      as [(e & Hcard & Hr)|(card & w1 & Hcard & Hr & Hl & Ho & Hf)]; rewrite Hr.
    + left. exists e, w. split; [reflexivity|]. split; [apply rendering_only_refl|].
      apply Exists_cons_hd. exact Hcard.
    + destruct (IH w1) as [(e & w2 & Hrun & Hf2 & Hex)
                          |(cards & w2 & Hrun & Hall & Hl2 & Ho2 & Hf2)].
      * left. exists e, w2. split; [assumption|]. split.
        -- eapply rendering_only_trans; eassumption.
        -- apply Exists_cons_tl. exact Hex.
      * right. exists (card :: cards), w2. split; [assumption|].
        split; [constructor; assumption|].
        split; [rewrite Hl2, Hl; cbn [map]; rewrite <- app_assoc; reflexivity|].
        split; [rewrite Ho2, Ho; cbn [map]; rewrite <- app_assoc; reflexivity|].
        eapply rendering_only_trans; eassumption.
Qed.

(** The page once the request is out and both containers are cleared. *)
Lemma fetchActivities_parsed (r : response) (v : value) (w : world) :
  body r = Some v ->
  fetchActivities (Responded r) w
  = match Object_entries v with
    | Normal entries =>
      match forEach entries render_activity
              (with_activitySelect placeholder_only
                 (with_activitiesList []
                    (with_requests (requests w ++ [activities_request]) w))) with
      | (Normal _, w') => (Normal tt, w')
      | (Throw e, w') =>
        (Normal tt,
         with_console (console w' ++ [(lit "Error fetching activities:", e)])
           (with_activitiesList [Markup load_failure] w'))
      end
    | Throw e =>
      (Normal tt,
       with_console (console w ++ [(lit "Error fetching activities:", e)])
         (with_activitiesList [Markup load_failure]
            (with_activitySelect placeholder_only
               (with_requests (requests w ++ [activities_request]) w))))
    end.
Proof.
  intros Hb. unfold fetchActivities, try_catch, bind, fetch, eval, modify, json,
    console_error. cbn. rewrite Hb.
  destruct (Object_entries v) as [entries|e]; [|reflexivity].
  destruct (forEach entries render_activity _) as [[[]|e] w']; reflexivity.
Qed.

Lemma fetchActivities_failed (o : fetch_outcome) (e : error) (w : world) :
  match o with
  | Rejected => e = NetworkFailure
  | Responded r => body r = None /\ e = SyntaxError
  end ->
  fetchActivities o w
  = (Normal tt,
     with_console (console w ++ [(lit "Error fetching activities:", e)])
       (with_activitiesList [Markup load_failure]
          (with_requests (requests w ++ [activities_request]) w))).
Proof.
  unfold fetchActivities, try_catch, bind, fetch, eval, modify, json, console_error.
  destruct o as [|r]; cbn.
  - intros ->. reflexivity.
  - intros [Hb ->]. rewrite Hb. reflexivity.
Qed.

(** Whatever the outcome, [fetchActivities] returns normally, sends one
    request and leaves the form's email field, the banner, the timers and
    the dialogs alone. *)
Lemma fetchActivities_frame (o : fetch_outcome) (w : world) :
  exists w', fetchActivities o w = (Normal tt, w')
             /\ emailInput w' = emailInput w /\ messageDiv w' = messageDiv w
             /\ timers w' = timers w /\ dialogs w' = dialogs w
             /\ uncaught w' = uncaught w
             /\ requests w' = requests w ++ [activities_request].
Proof.
  destruct o as [|r].
  - rewrite (fetchActivities_failed Rejected NetworkFailure) by reflexivity.
    eexists. repeat split.
  - destruct (body r) as [v|] eqn:Hb.
    + rewrite (fetchActivities_parsed r v) by assumption.
      destruct (Object_entries v) as [entries|e]; [|eexists; repeat split].
      match goal with |- context [forEach entries render_activity ?w0] =>
        destruct (forEach_render_cases entries w0)
          as [(e & w1 & Hrun & Hf & _)|(cards & w1 & Hrun & _ & _ & _ & Hf)]
      end; rewrite Hrun; destruct Hf as (F1 & F2 & F3 & F4 & F5 & F6 & F7);
        eexists; (split; [reflexivity|]); cbn; repeat split; assumption.
    + rewrite (fetchActivities_failed (Responded r) SyntaxError) by (split; [assumption|reflexivity]).
      eexists. repeat split.
Qed.

(** *** Valid activity maps *)







Lemma get_array_length (elems : list value) :
  get (VArr elems) (lit "length") = Normal (VNum (num_of_Z (Z.of_nat (length elems)))).
Proof. reflexivity. Qed.





(** *** What the renderer leaves on the page *)

(** C2 (amended): when GET /activities is rejected by a network error, the
    activities container shows exactly the fixed message "Failed to load
    activities. Please try again later.", the error is logged, and the
    activity selection control is left exactly as it was before the call. *)
Theorem load_rejected_keeps_select (w : world) :
  let w' := run (fetchActivities Rejected) w in
  activitiesList w' = [Markup load_failure]
  /\ activitySelect w' = activitySelect w
  /\ console w' = console w ++ [(lit "Error fetching activities:", NetworkFailure)].
Proof.
  cbn zeta. unfold run.
  rewrite (fetchActivities_failed Rejected NetworkFailure) by reflexivity.
  repeat split.
Qed.


(** C9: the renderer never looks at the HTTP status. A response whose body
    parses as JSON gives the same page under every status; the parsed
    value is taken as the activity map and either every entry is rendered
    as a card or the container shows the fixed failure message and the
    error is logged; in both cases the message banner is left alone. *)
Theorem load_ignores_status (s : Z) (v : value) (w : world) :
  let w' := run (fetchActivities (Responded {| status := s; body := Some v |})) w in
  (forall s', run (fetchActivities (Responded {| status := s'; body := Some v |})) w = w')
  /\ messageDiv w' = messageDiv w
  /\ timers w' = timers w
  /\ ((exists entries cards,
         Object_entries v = Normal entries
         /\ Forall2 (fun entry card => activity_card (fst entry) (snd entry) = Normal card)
                    entries cards
         /\ activitiesList w' = map ActivityCard cards)
      \/ (activitiesList w' = [Markup load_failure]
          /\ exists e, console w' = console w ++ [(lit "Error fetching activities:", e)])).
Proof.
  cbn zeta. split; [reflexivity|]. unfold run.
  rewrite (fetchActivities_parsed _ v) by reflexivity.
  destruct (Object_entries v) as [entries|e].
  - match goal with |- context [forEach entries render_activity ?w0] =>
      destruct (forEach_render_cases entries w0)
        as [(e & w1 & Hrun & Hf & _)|(cards & w1 & Hrun & Hall & Hl & _ & Hf)]
    end; rewrite Hrun; destruct Hf as (F1 & F2 & F3 & F4 & F5 & F6 & F7); cbn.
    + repeat split; try assumption. right. split; [reflexivity|].
      exists e. rewrite F4. reflexivity.
    + repeat split; try assumption. left. exists entries, cards.
      repeat split; assumption.
  - cbn. repeat split. right. split; [reflexivity|]. exists e. reflexivity.
Qed.

Lemma missing_participants_throw (name : jsstring) (details : value) :
  participants_missing details = true -> activity_card name details = Throw TypeError.
Proof.
  unfold participants_missing, activity_card. intros H.
  destruct details as [| |b|n|str|elems|props]; try reflexivity; try discriminate.
  cbn [get cbind] in *.
  destruct (lookup (lit "participants") props); try discriminate; reflexivity.
Qed.

(** C10: when some activity of the map has no participants field, or null
    for it, computing its spots left throws a TypeError, the handler of
    the renderer catches it, and the whole container, cards of well-formed
    activities included, is replaced by the fixed failure message. *)
Theorem missing_participants_fail_the_list
    (s : Z) (entries : list (jsstring * value)) (w : world) :
  Exists (fun entry => participants_missing (snd entry) = true) entries ->
  let w' := run (fetchActivities (Responded {| status := s; body := Some (VObj entries) |})) w in
  (forall entry, In entry entries -> participants_missing (snd entry) = true ->
                 activity_card (fst entry) (snd entry) = Throw TypeError)
  /\ activitiesList w' = [Markup load_failure]
  /\ exists e, console w' = console w ++ [(lit "Error fetching activities:", e)].
Proof.
  intros Hbad. cbn zeta.
  split; [intros entry _ Hm; now apply missing_participants_throw|].
  unfold run. rewrite (fetchActivities_parsed _ (VObj entries)) by reflexivity.
  cbn [Object_entries].
  match goal with |- context [forEach entries render_activity ?w0] =>
    destruct (forEach_render_cases entries w0)
      as [(e & w1 & Hrun & Hf & _)|(cards & w1 & Hrun & Hall & _)]
  end; rewrite Hrun.
  - destruct Hf as (F1 & F2 & F3 & F4 & F5 & F6 & F7). cbn.
    split; [reflexivity|]. exists e. rewrite F4. reflexivity.
  - exfalso. clear Hrun. induction Hall as [|entry card rest cards Hc Hall IH].
    + inversion Hbad.
    + inversion Hbad as [? ? Hm|? ? Hm]; subst.
      * rewrite (missing_participants_throw _ _ Hm) in Hc. discriminate.
      * now apply IH.
Qed.

End Renderer.

(** ** The two listeners *)

Arguments lit : simpl never.
Arguments fetchActivities : simpl never.

Ltac script_steps :=
  unfold run, on_submit, on_click, try_catch, bind, gets, eval, fetch, modify, ret,
    update_message, setTimeout, console_error, confirm, json.

Section Listeners.
Context {P : Platform}.

(** C7: when the sign-up request is answered with a non-OK status, the
    banner shows the detail sent by the server when there is one (a truthy
    detail field, as the text it converts to) and a generic fallback
    otherwise ("An error occurred" when the body has no truthy detail, the
    fixed text of the catch block when the body is null or not JSON or the
    detail has no string), with the error style and visible, and the
    fields of the form keep their values. *)
Theorem failed_signup_keeps_form (w : world) (r : response) (refresh : fetch_outcome) :
  signup_sent w = true -> ok r = false ->
  let w' := run (on_submit (Responded r) refresh) w in
  emailInput w' = emailInput w
  /\ activitySelect w' = activitySelect w
  /\ classList (messageDiv w') = [lit "error"]
  /\ is_hidden (messageDiv w') = false
  /\ textContent (messageDiv w')
     = match body r with
       | Some v =>
         match get v (lit "detail") with
         | Normal detail =>
           if truthy detail then
             match ToString detail with
             | Normal text => text
             | Throw _ => lit "Failed to sign up. Please try again."
             end
           else lit "An error occurred"
         | Throw _ => lit "Failed to sign up. Please try again."
         end
       | None => lit "Failed to sign up. Please try again."
       end.
Proof.
  unfold signup_sent. intros Hsent Hok. cbn zeta.
  destruct (URI.encodeURIComponent (select_value (activitySelect w))) as [a|] eqn:Ha;
    [|discriminate].
  destruct (URI.encodeURIComponent (input_value (emailInput w))) as [e|] eqn:He;
    [|discriminate].
  script_steps. rewrite Ha, He. cbn. rewrite Hok.
  destruct (body r) as [v|]; cbn; [|repeat split].
  destruct (get v (lit "detail")) as [detail|err]; cbn; [|repeat split].
  unfold or_else. destruct (truthy detail) eqn:Ht; [|repeat split].
  assert (Htext : text_of detail = ToString detail)
    by (destruct detail; try reflexivity; discriminate Ht).
  rewrite Htext. destruct (ToString detail) as [text|err]; repeat split.
Qed.

(** Running the callback of the auto-hide timer hides the banner. *)
Lemma fire_hides_banner (w : world) :
  is_hidden (messageDiv (fire hide_after_5s w)) = true.
Proof.
  unfold fire, is_hidden, classList_add. cbn.
  destruct (existsb (jsstring_eqb hidden_class) (classList (messageDiv w))) eqn:E.
  - exact E.
  - rewrite existsb_app, E. reflexivity.
Qed.

(** C1 (the failing path): when the POST of the sign-up is rejected, or
    the request cannot be built, the banner is made visible with the fixed
    error text and no timer is armed: the list of pending timers is the
    one from before the submission. *)
Theorem rejected_signup_arms_no_timer (w : world) (refresh : fetch_outcome) :
  let w' := run (on_submit Rejected refresh) w in
  timers w' = timers w
  /\ is_hidden (messageDiv w') = false
  /\ classList (messageDiv w') = [lit "error"]
  /\ textContent (messageDiv w') = lit "Failed to sign up. Please try again.".
Proof.
  cbn zeta. script_steps.
  destruct (URI.encodeURIComponent (select_value (activitySelect w))) as [a|];
    [|repeat split].
  destruct (URI.encodeURIComponent (input_value (emailInput w))) as [e|];
    repeat split.
Qed.

(** The sibling path: a rejected DELETE does arm the timer. *)
Lemma rejected_removal_arms_timer (w : world) (target : click_target)
    (refresh : fetch_outcome) :
  removal_sent target = true ->
  let w' := run (on_click target true Rejected refresh) w in
  timers w' = timers w ++ [hide_after_5s]
  /\ is_hidden (messageDiv w') = false
  /\ textContent (messageDiv w') = lit "Failed to remove participant".
Proof.
  unfold removal_sent. intros Hsent. cbn zeta.
  destruct target as [| |da de]; try discriminate.
  destruct (URI.decodeURIComponent (dataset_string da)) as [n|] eqn:Hn; [|discriminate].
  destruct (URI.decodeURIComponent (dataset_string de)) as [m|] eqn:Hm; [|discriminate].
  apply andb_true_iff in Hsent. destruct Hsent as [Hne Henc].
  apply negb_true_iff in Hne.
  destruct (URI.encodeURIComponent n) as [a|] eqn:Ha; [|discriminate].
  destruct (URI.encodeURIComponent m) as [e|] eqn:He; [|discriminate].
  script_steps. rewrite Hn, Hm. cbn. rewrite Hne. cbn. rewrite Ha, He. cbn.
  repeat split.
Qed.

(** A sign-up that ends without exception arms the timer after showing
    the banner. *)
Lemma answered_signup_arms_timer (w : world) (o refresh : fetch_outcome) :
  signup_sent w = true -> reply_of o <> Exception ->
  let w' := run (on_submit o refresh) w in
  timers w' = timers w ++ [hide_after_5s] /\ is_hidden (messageDiv w') = false.
Proof.
  unfold signup_sent, reply_of, shown_as. intros Hsent Hrep. cbn zeta.
  destruct (URI.encodeURIComponent (select_value (activitySelect w))) as [a|] eqn:Ha;
    [|discriminate].
  destruct (URI.encodeURIComponent (input_value (emailInput w))) as [e|] eqn:He;
    [|discriminate].
  destruct o as [|r]; [congruence|].
  script_steps. rewrite Ha, He. cbn.
  destruct (body r) as [v|]; [|congruence]. cbn.
  destruct (ok r).
  - destruct (get v (lit "message")) as [m|]; [|congruence]. cbn.
    destruct (text_of m) as [text|]; [|congruence]. cbn.
    match goal with |- context [fetchActivities refresh ?w0] =>
      destruct (fetchActivities_frame refresh w0) as (w1 & Hrun & F1 & F2 & F3 & _)
    end.
    rewrite Hrun. cbn. rewrite F2, F3. cbn. repeat split.
  - destruct (get v (lit "detail")) as [d|]; [|congruence]. cbn.
    unfold or_else. destruct (truthy d); [|repeat split].
    destruct (text_of d) as [text|]; [|congruence]. repeat split.
Qed.

(** C8: when the user declines the confirmation, no request is sent and
    the banner, the activities container, the selection control, the email
    field, the timers and the console are what they were. *)
Theorem declined_removal_changes_nothing (w : world) (target : click_target)
    (removal refresh : fetch_outcome) :
  let w' := run (on_click target false removal refresh) w in
  requests w' = requests w
  /\ messageDiv w' = messageDiv w
  /\ activitiesList w' = activitiesList w
  /\ activitySelect w' = activitySelect w
  /\ emailInput w' = emailInput w
  /\ timers w' = timers w
  /\ console w' = console w.
Proof.
  cbn zeta. destruct target as [| |da de]; script_steps; [repeat split..|].
  destruct (URI.decodeURIComponent (dataset_string da)) as [n|]; [|repeat split].
  destruct (URI.decodeURIComponent (dataset_string de)) as [m|]; [|repeat split].
  cbn. destruct (empty n || empty m); repeat split.
Qed.

(** C3 (amended): when both listeners send their request and get the same
    outcome, the removal listener gives the banner the same style as the
    sign-up listener, shows it, and arms one 5-second hide timer. The text
    is the same on success (the server's message) and on a failure with a
    detail (the detail); on a failure without detail and on an exception
    (the request is rejected, the body is null or not JSON, or the message
    or detail has no string) the removal listener shows "Failed to remove
    participant" where the sign-up listener shows "An error occurred" and
    "Failed to sign up. Please try again.". On success and on failure
    both arm the same timer. *)
Theorem removal_messages_like_signup (w : world) (target : click_target)
    (o refresh : fetch_outcome) :
  signup_sent w = true -> removal_sent target = true ->
  let ws := run (on_submit o refresh) w in
  let wr := run (on_click target true o refresh) w in
  classList (messageDiv wr) = classList (messageDiv ws)
  /\ is_hidden (messageDiv wr) = false
  /\ timers wr = timers w ++ [hide_after_5s]
  /\ match reply_of o with
     | Success message =>
       textContent (messageDiv wr) = message
       /\ textContent (messageDiv ws) = message
       /\ timers ws = timers wr
     | Failure (Some detail) =>
       timers ws = timers wr
       /\ textContent (messageDiv wr) = detail
       /\ textContent (messageDiv ws) = detail
     | Failure None =>
       timers ws = timers wr
       /\ textContent (messageDiv wr) = lit "Failed to remove participant"
       /\ textContent (messageDiv ws) = lit "An error occurred"
     | Exception =>
       textContent (messageDiv wr) = lit "Failed to remove participant"
       /\ textContent (messageDiv ws) = lit "Failed to sign up. Please try again."
     end.
Proof.
  unfold signup_sent, removal_sent. intros Hs Hr. cbn zeta.
  destruct (URI.encodeURIComponent (select_value (activitySelect w))) as [sa|] eqn:Hsa;
    [|discriminate].
  destruct (URI.encodeURIComponent (input_value (emailInput w))) as [se|] eqn:Hse;
    [|discriminate].
  destruct target as [| |da de]; try discriminate.
  destruct (URI.decodeURIComponent (dataset_string da)) as [n|] eqn:Hn; [|discriminate].
  destruct (URI.decodeURIComponent (dataset_string de)) as [m|] eqn:Hm; [|discriminate].
  apply andb_true_iff in Hr. destruct Hr as [Hne Henc].
  apply negb_true_iff in Hne.
  destruct (URI.encodeURIComponent n) as [a|] eqn:Ha; [|discriminate].
  destruct (URI.encodeURIComponent m) as [e|] eqn:He; [|discriminate].
  script_steps. rewrite Hn, Hm, Hsa, Hse. cbn. rewrite Hne. cbn. rewrite Ha, He. cbn.
  unfold reply_of, shown_as.
  destruct o as [|r]; [cbn; repeat split|]. cbn.
  destruct (body r) as [v|]; [|cbn; repeat split]. cbn.
  destruct (ok r).
  - destruct (get v (lit "message")) as [message|err]; [|cbn; repeat split]. cbn.
    destruct (text_of message) as [text|err]; [|cbn; repeat split]. cbn.
    repeat match goal with |- context [fetchActivities refresh ?w0] =>
      let w1 := fresh "w" in let Hrun := fresh "Hrun" in
      destruct (fetchActivities_frame refresh w0) as (w1 & Hrun & _ & ? & ? & _);
      rewrite Hrun
    end.
    cbn in *.
    repeat match goal with H : messageDiv _ = _ |- _ => rewrite H; clear H end.
    repeat match goal with H : timers _ = _ |- _ => rewrite H; clear H end.
    cbn. repeat split.
  - destruct (get v (lit "detail")) as [detail|err]; [|cbn; repeat split]. cbn.
    unfold or_else. destruct (truthy detail); [|repeat split].
    destruct (text_of detail) as [text|err]; repeat split.
Qed.

End Listeners.

(** ** Concrete runs *)

Example encode_reserved_characters :
  URI.encodeURIComponent (lit "a+b&c@d e") = Normal (lit "a%2Bb%26c%40d%20e").
Proof. reflexivity. Qed.

(** A surrogate pair, a two-octet and a three-octet character. *)
Example round_trip_beyond_ascii :
  URI.encodeURIComponent [0xD83D; 0xDE00; 233; 0x20AC]
  = Normal (lit "%F0%9F%98%80%C3%A9%E2%82%AC")
  /\ URI.decodeURIComponent (lit "%F0%9F%98%80%C3%A9%E2%82%AC")
     = Normal [0xD83D; 0xDE00; 233; 0x20AC].
Proof. split; reflexivity. Qed.

Example decode_refuses_overlong_and_truncated :
  URI.decodeURIComponent (lit "%C0%80") = Throw URIError
  /\ URI.decodeURIComponent (lit "%E2%82") = Throw URIError
  /\ URI.decodeURIComponent (lit "100%") = Throw URIError.
Proof. repeat split. Qed.

Example decimal_of_integers :
  decimal 10 = lit "10" /\ decimal 0 = lit "0" /\ decimal (-3) = lit "-3".
Proof. repeat split. Qed.

(** An activity without participants: "10 spots left" and the placeholder
    paragraph. *)
Example empty_roster_card :
  activity_card (lit "Chess Club")
    (activity_value {| description := lit "Learn strategies"; schedule := lit "Fridays";
                       max_participants := 10; participants := [] |})
  = Normal (card_template (lit "Chess Club") (lit "Learn strategies") (lit "Fridays")
              (lit "10") no_participants).
Proof. reflexivity. Qed.

(** A successful sign-up: message shown with the success style, form
    reset, list fetched again, timer armed. *)
Example signed_up :
  let w' := run (on_submit
                   (Responded {| status := 200;
                                 body := Some (VObj [(lit "message",
                                                      VStr (lit "Signed up!"))]) |})
                   chess_only) loaded_page in
  messageDiv w' = {| textContent := lit "Signed up!"; classList := [lit "success"] |}
  /\ input_value (emailInput w') = []
  /\ requests w' = [signup_request (lit "Chess%20Club") (lit "amy%40mergington.edu");
                    activities_request]
  /\ timers w' = [hide_after_5s].
Proof. repeat split. Qed.

(** C6 (amended): for every activity name or participant identifier that
    is a well-formed string (no unpaired surrogate), reserved URL
    characters such as +, &, @ and spaces included, the renderer can
    percent-encode it, the encoded text survives as the value of a
    double-quoted data attribute, and percent-decoding it in the click
    listener gives the original string back. *)
Theorem data_attribute_round_trip (s : jsstring) :
  URI.well_formed s = true ->
  exists e, URI.encodeURIComponent s = Normal e
            /\ forallb URI.attribute_safe e = true
            /\ URI.decodeURIComponent (dataset_string (Some e)) = Normal s.
Proof. intros Hwf. exact (encode_then_decode (length s) s (le_n _) Hwf). Qed.

Lemma data_attribute_round_trip_reserved :
  URI.well_formed (lit "a+b&c@d e") = true
  /\ exists e, URI.encodeURIComponent (lit "a+b&c@d e") = Normal e
               /\ forallb URI.attribute_safe e = true
               /\ URI.decodeURIComponent (dataset_string (Some e)) = Normal (lit "a+b&c@d e").
Proof.
  split; [reflexivity|].
  apply (data_attribute_round_trip (lit "a+b&c@d e")). reflexivity.
Defined.

(** C6 as stated fails on a string that is an unpaired surrogate: it
    cannot be encoded, so there is nothing to decode. *)
Lemma lone_surrogate_has_no_round_trip :
  URI.encodeURIComponent [0xD800] = Throw URIError
  /\ ~ (exists e, URI.encodeURIComponent [0xD800] = Normal e
                  /\ URI.decodeURIComponent e = Normal [0xD800]).
Proof.
  split; [reflexivity|]. intros (e & He & _). discriminate He.
Qed.

(** C2 as stated fails on a page whose selection control already lists an
    activity: after the rejected load it still lists it. *)
Lemma rejected_load_select_not_placeholder_only :
  activitiesList (run (fetchActivities Rejected) loaded_page) = [Markup load_failure]
  /\ options (activitySelect (run (fetchActivities Rejected) loaded_page))
     = [placeholder; activity_option (lit "Chess Club")]
  /\ activitySelect (run (fetchActivities Rejected) loaded_page) <> placeholder_only.
Proof.
  split; [reflexivity|]. split; [reflexivity|]. intros H. discriminate H.
Qed.

(** C3 as stated fails on an HTTP 400 without detail: the removal listener
    shows "Failed to remove participant", the sign-up listener "An error
    occurred". *)
Lemma fallback_texts_differ :
  textContent (messageDiv (run (on_click amy_row true bad_request_no_detail chess_only)
                               loaded_page))
  = lit "Failed to remove participant"
  /\ textContent (messageDiv (run (on_submit bad_request_no_detail chess_only) loaded_page))
     = lit "An error occurred"
  /\ textContent (messageDiv (run (on_click amy_row true bad_request_no_detail chess_only)
                                  loaded_page))
     <> textContent (messageDiv (run (on_submit bad_request_no_detail chess_only)
                                     loaded_page)).
Proof.
  split; [reflexivity|]. split; [reflexivity|]. intros H. discriminate H.
Qed.

Lemma removal_messages_like_signup_on_400 :
  signup_sent loaded_page = true /\ removal_sent amy_row = true
  /\ classList (messageDiv (run (on_click amy_row true already_registered chess_only)
                                loaded_page))
     = classList (messageDiv (run (on_submit already_registered chess_only) loaded_page)).
Proof.
  split; [reflexivity|]. split; [reflexivity|].
  apply (removal_messages_like_signup loaded_page amy_row already_registered chess_only);
    reflexivity.
Defined.


Lemma failed_signup_keeps_form_on_400 :
  signup_sent loaded_page = true
  /\ ok {| status := 400;
           body := Some (VObj [(lit "detail", VStr (lit "Already registered"))]) |} = false
  /\ emailInput (run (on_submit already_registered chess_only) loaded_page)
     = emailInput loaded_page
  /\ textContent (messageDiv (run (on_submit already_registered chess_only) loaded_page))
     = lit "Already registered".
Proof.
  split; [reflexivity|]. split; [reflexivity|].
  destruct (failed_signup_keeps_form loaded_page
              {| status := 400;
                 body := Some (VObj [(lit "detail", VStr (lit "Already registered"))]) |}
              chess_only eq_refl eq_refl) as (Hemail & _ & _ & _ & Htext).
  split; [exact Hemail|exact Htext].
Defined.

(** An activity map whose second activity has no participants field. *)
Lemma missing_participants_fail_the_list_art :
  Exists (fun entry => participants_missing (snd entry) = true)
         [(lit "Chess Club", activity_value chess_club);
          (lit "Art", VObj [(lit "max_participants", VNum (Some 5))])]
  /\ activitiesList
       (run (fetchActivities
               (Responded {| status := 200;
                             body := Some (VObj [(lit "Chess Club", activity_value chess_club);
                                                 (lit "Art",
                                                  VObj [(lit "max_participants",
                                                         VNum (Some 5))])]) |}))
            fresh_page)
     = [Markup load_failure].
Proof.
  assert (H : Exists (fun entry : jsstring * value => participants_missing (snd entry) = true)
                [(lit "Chess Club", activity_value chess_club);
                 (lit "Art", VObj [(lit "max_participants", VNum (Some 5))])]).
  { apply Exists_cons_tl, Exists_cons_hd. reflexivity. }
  split; [exact H|].
  exact (proj1 (proj2 (missing_participants_fail_the_list 200 _ fresh_page H))).
Defined.

(** C4 (the failing input): a click on the remove control of a row that
    has no data-activity attribute is not ignored: the user is asked to
    confirm the removal from the activity "undefined" and, on agreeing,
    the DELETE request for that name is sent. *)
Theorem row_without_activity_not_ignored :
  let w' := run (on_click row_without_activity true unregistered chess_only) loaded_page in
  dialogs w' = [lit "Unregister amy@mergington.edu from undefined?"]
  /\ requests w'
     = [removal_request (lit "undefined") (lit "amy%40mergington.edu"); activities_request].
Proof. split; reflexivity. Qed.

(** The dialog is what the declined removal leaves behind. *)
Lemma declined_removal_was_asked (w : world) (removal refresh : fetch_outcome) :
  dialogs (run (on_click amy_row false removal refresh) w)
  = dialogs w ++ [lit "Unregister amy@mergington.edu from Chess Club?"].
Proof. reflexivity. Qed.

(** * Further properties *)

(** ** Percent-encoding *)

Lemma hex_digit_url_safe (d : Z) : 0 <= d < 16 -> url_safe (URI.hex_digit d) = true.
Proof.
  intros Hd. unfold url_safe, URI.uriUnescaped, URI.is_alpha, URI.is_digit, URI.is_mark,
    URI.hex_digit.
  cbn [existsb]. destruct (Z.ltb_spec d 10); settle_tests; reflexivity.
Qed.

Lemma percent_octet_url_safe (b : Z) :
  0 <= b < 256 -> forallb url_safe (URI.percent_octet b) = true.
Proof.
  intros Hb. unfold URI.percent_octet. cbn [forallb].
  rewrite !hex_digit_url_safe by arith. reflexivity.
Qed.

Lemma escape_code_point_url_safe (cp : Z) :
  0 <= cp <= 0x10FFFF -> forallb url_safe (URI.escape_code_point cp) = true.
Proof.
  intros Hcp. unfold URI.escape_code_point, URI.utf8_octets.
  destruct (Z.ltb_spec cp 0x80); [|destruct (Z.ltb_spec cp 0x800);
    [|destruct (Z.ltb_spec cp 0x10000)]];
    cbn [flat_map]; rewrite ?forallb_app, ?percent_octet_url_safe by arith; reflexivity.
Qed.

(** Encoding either succeeds, on a well-formed string and with URL-safe
    text, or throws URIError, on a string that is not well-formed. *)
Lemma encode_cases (n : nat) (s : jsstring) :
  (length s <= n)%nat -> in_range s = true ->
  (URI.well_formed s = true
   /\ exists e, URI.encodeURIComponent s = Normal e /\ forallb url_safe e = true)
  \/ (URI.well_formed s = false /\ URI.encodeURIComponent s = Throw URIError).
Proof.
  revert s. induction n as [|n IH]; intros s Hlen Hin.
  - destruct s; [|cbn in Hlen; lia]. left. split; [reflexivity|]. exists []. split; reflexivity.
  - destruct s as [|c rest]; [left; split; [reflexivity|]; exists []; split; reflexivity|].
    cbn [in_range forallb] in Hin. apply andb_true_iff in Hin. destruct Hin as [Hc Hin].
    cbn [length] in Hlen. cbn [URI.well_formed URI.encodeURIComponent]. rewrite Hc.
    cbn [andb].
    destruct (URI.uriUnescaped c) eqn:Hu.
    { destruct (uriUnescaped_range c Hu) as (Hr & _).
      assert (Hl : URI.is_leading_surrogate c = false)
        by (unfold URI.is_leading_surrogate; settle_tests; reflexivity).
      assert (Ht : URI.is_trailing_surrogate c = false)
        by (unfold URI.is_trailing_surrogate; settle_tests; reflexivity).
      rewrite Hl, Ht. cbn [negb andb].
      destruct (IH rest) as [(Hwf & e & He & Hs)|(Hwf & He)]; [lia|exact Hin| |].
      - left. split; [exact Hwf|]. rewrite He. exists (c :: e). split; [reflexivity|].
        cbn [forallb]. rewrite Hs. unfold url_safe. rewrite Hu. reflexivity.
      - right. split; [exact Hwf|]. rewrite He. reflexivity. }
    destruct (URI.is_trailing_surrogate c) eqn:Ht.
    { assert (Hl : URI.is_leading_surrogate c = false).
      { unfold URI.is_leading_surrogate, URI.is_trailing_surrogate in *.
        tests_to_props. settle_tests. reflexivity. }
      rewrite Hl. right. split; reflexivity. }
    cbn [negb andb].
    destruct (URI.is_leading_surrogate c) eqn:Hl.
    { destruct rest as [|d rest']; [right; split; reflexivity|].
      destruct (URI.is_trailing_surrogate d) eqn:Hd; [|right; split; reflexivity].
      cbn [andb]. cbn [forallb] in Hin. apply andb_true_iff in Hin. destruct Hin as [_ Hin].
      cbn [length] in Hlen.
      destruct (surrogate_pair_scalar c d Hl Hd) as [[Hcp _] _].
      destruct (IH rest') as [(Hwf & e & He & Hs)|(Hwf & He)]; [lia|exact Hin| |].
      - left. split; [exact Hwf|]. rewrite He. eexists. split; [reflexivity|].
        rewrite forallb_app, Hs, escape_code_point_url_safe by assumption. reflexivity.
      - right. split; [exact Hwf|]. rewrite He. reflexivity. }
    assert (Hcp : 0 <= c <= 0x10FFFF).
    { unfold code_unit in Hc. tests_to_props. lia. }
    destruct (IH rest) as [(Hwf & e & He & Hs)|(Hwf & He)]; [lia|exact Hin| |].
    + left. split; [exact Hwf|]. rewrite He. eexists. split; [reflexivity|].
      rewrite forallb_app, Hs, escape_code_point_url_safe by assumption. reflexivity.
    + right. split; [exact Hwf|]. rewrite He. reflexivity.
Qed.

Lemma well_formed_in_range (s : jsstring) : URI.well_formed s = true -> in_range s = true.
Proof.
  assert (H : forall n s, (length s <= n)%nat -> URI.well_formed s = true -> in_range s = true).
  { clear s. induction n as [|n IH]; intros s Hlen Hwf.
    - destruct s; [reflexivity|cbn in Hlen; lia].
    - destruct s as [|c rest]; [reflexivity|].
      cbn [URI.well_formed] in Hwf. apply andb_true_iff in Hwf. destruct Hwf as [Hc Hwf].
      cbn [in_range forallb]. rewrite Hc. cbn [andb]. cbn [length] in Hlen.
      destruct (URI.is_leading_surrogate c).
      + destruct rest as [|d rest']; [discriminate|].
        apply andb_true_iff in Hwf. destruct Hwf as [Hd Hwf].
        cbn [forallb]. cbn [length] in Hlen.
        assert (Hdu : code_unit d = true).
        { unfold URI.is_trailing_surrogate, code_unit in *. tests_to_props.
          settle_tests. reflexivity. }
        rewrite Hdu. apply (IH rest'); [lia|assumption].
      + apply andb_true_iff in Hwf. destruct Hwf as [_ Hwf].
        apply (IH rest); [lia|assumption]. }
  apply (H (length s)). apply le_n.
Qed.

(** X1: on a string of code units, encodeURIComponent succeeds exactly
    when no surrogate is unpaired, and the only error it throws is
    URIError. *)
Theorem encode_succeeds_iff_well_formed (s : jsstring) :
  in_range s = true ->
  ((exists e, URI.encodeURIComponent s = Normal e) <-> URI.well_formed s = true)
  /\ (forall err, URI.encodeURIComponent s = Throw err -> err = URIError).
Proof.
  intros Hin.
  destruct (encode_cases (length s) s (le_n _) Hin) as [(Hwf & e & He & _)|(Hwf & He)].
  - split.
    + split; [intros _; exact Hwf|intros _; exists e; exact He].
    + intros err H. rewrite He in H. discriminate.
  - split.
    + split; [intros (e & H); rewrite He in H; discriminate
             |intros H; rewrite Hwf in H; discriminate].
    + intros err H. rewrite He in H. now injection H as <-.
Qed.

Lemma encode_succeeds_iff_well_formed_pair :
  in_range [0xD83D; 0xDE00] = true
  /\ ((exists e, URI.encodeURIComponent [0xD83D; 0xDE00] = Normal e)
      <-> URI.well_formed [0xD83D; 0xDE00] = true).
Proof.
  split; [reflexivity|].
  exact (proj1 (encode_succeeds_iff_well_formed [0xD83D; 0xDE00] eq_refl)).
Defined.

(** X2: the text encodeURIComponent returns holds only characters of the
    unescaped set and percent signs, so inside a URL it cannot end the
    path segment or the query value it is put in (no slash, question
    mark, ampersand, equals sign, hash or space). *)
Theorem encoded_text_is_url_safe (s e : jsstring) :
  in_range s = true -> URI.encodeURIComponent s = Normal e ->
  forallb url_safe e = true
  /\ forallb (fun c => negb (existsb (Z.eqb c) [47; 63; 38; 61; 35; 32])) e = true.
Proof.
  intros Hin He.
  assert (Hsafe : forallb url_safe e = true).
  { destruct (encode_cases (length s) s (le_n _) Hin) as [(_ & e' & He' & Hs)|(_ & He')];
      rewrite He' in He; [|discriminate]. now injection He as <-. }
  split; [exact Hsafe|].
  rewrite forallb_forall in *. intros c Hc. specialize (Hsafe c Hc).
  unfold url_safe in Hsafe. apply orb_true_iff in Hsafe. destruct Hsafe as [Hu|H37].
  - destruct (uriUnescaped_range c Hu) as (Hr & H37 & H34 & H38).
    revert Hu. unfold URI.uriUnescaped, URI.is_alpha, URI.is_digit, URI.is_mark.
    cbn [existsb]. intros Hu.
    repeat match goal with
    | |- context [Z.eqb c ?k] => destruct (Z.eqb_spec c k); [subst c; discriminate Hu|]
    end.
    reflexivity.
  - apply Z.eqb_eq in H37. subst c. reflexivity.
Qed.

Lemma encoded_text_is_url_safe_path :
  in_range (lit "a/b?c=d&e#f g") = true
  /\ URI.encodeURIComponent (lit "a/b?c=d&e#f g") = Normal (lit "a%2Fb%3Fc%3Dd%26e%23f%20g")
  /\ forallb url_safe (lit "a%2Fb%3Fc%3Dd%26e%23f%20g") = true.
Proof.
  split; [reflexivity|]. split; [reflexivity|].
  exact (proj1 (encoded_text_is_url_safe (lit "a/b?c=d&e#f g")
                  (lit "a%2Fb%3Fc%3Dd%26e%23f%20g") eq_refl eq_refl)).
Defined.

Lemma encode_app_bounded (n : nat) (a b : jsstring) :
  (length a <= n)%nat -> URI.well_formed a = true ->
  URI.encodeURIComponent (a ++ b)
  = let? ea := URI.encodeURIComponent a in
    let? eb := URI.encodeURIComponent b in Normal (ea ++ eb).
Proof.
  revert a. induction n as [|n IH]; intros a Hlen Hwf.
  - destruct a; [|cbn in Hlen; lia]. cbn. destruct (URI.encodeURIComponent b); reflexivity.
  - destruct a as [|c rest]; [cbn; destruct (URI.encodeURIComponent b); reflexivity|].
    cbn [URI.well_formed] in Hwf. apply andb_true_iff in Hwf. destruct Hwf as [Hc Hwf].
    cbn [length] in Hlen. rewrite <- app_comm_cons. cbn [URI.encodeURIComponent].
    destruct (URI.uriUnescaped c) eqn:Hu.
    { destruct (uriUnescaped_range c Hu) as (Hr & _).
      assert (Hl : URI.is_leading_surrogate c = false)
        by (unfold URI.is_leading_surrogate; settle_tests; reflexivity).
      rewrite Hl in Hwf. apply andb_true_iff in Hwf. destruct Hwf as [_ Hwf].
      rewrite (IH rest) by (lia || assumption).
      destruct (URI.encodeURIComponent rest); cbn [cbind]; [|reflexivity].
      destruct (URI.encodeURIComponent b); reflexivity. }
    destruct (URI.is_leading_surrogate c) eqn:Hl.
    { assert (Ht : URI.is_trailing_surrogate c = false).
      { unfold URI.is_leading_surrogate, URI.is_trailing_surrogate in *.
        tests_to_props. settle_tests. reflexivity. }
      rewrite Ht. destruct rest as [|d rest']; [discriminate|].
      apply andb_true_iff in Hwf. destruct Hwf as [Hd Hwf].
      rewrite <- app_comm_cons. rewrite Hd. cbn [length] in Hlen.
      rewrite (IH rest') by (lia || assumption).
      destruct (URI.encodeURIComponent rest'); cbn [cbind]; [|reflexivity].
      destruct (URI.encodeURIComponent b); cbn [cbind]; [|reflexivity].
      now rewrite app_assoc. }
    apply andb_true_iff in Hwf. destruct Hwf as [Ht Hwf].
    apply negb_true_iff in Ht. rewrite Ht.
    rewrite (IH rest) by (lia || assumption).
    destruct (URI.encodeURIComponent rest); cbn [cbind]; [|reflexivity].
    destruct (URI.encodeURIComponent b); cbn [cbind]; [|reflexivity].
    now rewrite app_assoc.
Qed.

(** X3: encodeURIComponent works piece by piece: when the first piece is
    well-formed (the cut does not fall inside a surrogate pair), encoding
    a concatenation is encoding the pieces and concatenating. *)
Theorem encode_concatenation (a b : jsstring) :
  URI.well_formed a = true ->
  URI.encodeURIComponent (a ++ b)
  = let? ea := URI.encodeURIComponent a in
    let? eb := URI.encodeURIComponent b in Normal (ea ++ eb).
Proof. intros Hwf. exact (encode_app_bounded (length a) a b (le_n _) Hwf). Qed.

Lemma encode_concatenation_name :
  URI.well_formed (lit "Chess ") = true
  /\ URI.encodeURIComponent (lit "Chess " ++ lit "Club")
     = let? ea := URI.encodeURIComponent (lit "Chess ") in
       let? eb := URI.encodeURIComponent (lit "Club") in Normal (ea ++ eb).
Proof.
  split; [reflexivity|].
  exact (encode_concatenation (lit "Chess ") (lit "Club") eq_refl).
Defined.

(** X4: decodeURIComponent returns a string without percent sign as it
    is, whatever its code units. *)
Theorem decode_percent_free (s : jsstring) :
  percent_free s = true -> URI.decodeURIComponent s = Normal s.
Proof.
  induction s as [|c rest IH]; intros H; [reflexivity|].
  cbn [percent_free forallb] in H. apply andb_true_iff in H. destruct H as [Hc H].
  apply negb_true_iff, Z.eqb_neq in Hc.
  rewrite decode_plain by assumption. unfold percent_free in IH.
  rewrite IH by assumption. reflexivity.
Qed.

Lemma decode_percent_free_email :
  percent_free (lit "amy@mergington.edu") = true
  /\ URI.decodeURIComponent (lit "amy@mergington.edu") = Normal (lit "amy@mergington.edu").
Proof.
  split; [reflexivity|]. exact (decode_percent_free (lit "amy@mergington.edu") eq_refl).
Defined.

(** X5: two different well-formed strings never get the same encoded
    text, so two rows, or two request URLs, that agree on it are about the
    same activity and participant. *)
Theorem encode_injective (s1 s2 e : jsstring) :
  URI.well_formed s1 = true -> URI.well_formed s2 = true ->
  URI.encodeURIComponent s1 = Normal e -> URI.encodeURIComponent s2 = Normal e ->
  s1 = s2.
Proof.
  intros H1 H2 E1 E2.
  destruct (encode_then_decode _ s1 (le_n _) H1) as (e1 & He1 & _ & D1).
  destruct (encode_then_decode _ s2 (le_n _) H2) as (e2 & He2 & _ & D2).
  assert (e1 = e) by congruence. assert (e2 = e) by congruence. subst.
  congruence.
Qed.

Lemma encode_injective_same :
  URI.well_formed (lit "a b") = true
  /\ URI.encodeURIComponent (lit "a b") = Normal (lit "a%20b")
  /\ lit "a b" = lit "a b".
Proof.
  split; [reflexivity|]. split; [reflexivity|].
  exact (encode_injective (lit "a b") (lit "a b") (lit "a%20b")
           eq_refl eq_refl eq_refl eq_refl).
Defined.

Lemma unescape_throws_URIError (s : jsstring) (err : error) :
  URI.unescape s = Throw err -> err = URIError.
Proof.
  assert (H : forall n s, (length s <= n)%nat -> URI.unescape s = Throw err -> err = URIError).
  { clear s. induction n as [|n IH]; intros s Hlen.
    - destruct s; [discriminate|cbn in Hlen; lia].
    - destruct s as [|c rest]; [discriminate|]. cbn [URI.unescape length] in *.
      destruct (c =? 37).
      + destruct rest as [|h1 [|h2 rest']]; try (intros E; now injection E as <-).
        destruct (URI.hex_value h1); [|intros E; now injection E as <-].
        destruct (URI.hex_value h2); [|intros E; now injection E as <-].
        cbn [length] in Hlen. specialize (IH rest').
        destruct (URI.unescape rest'); [discriminate|].
        cbn [cbind]. intros E. injection E as <-. apply IH; [lia|reflexivity].
      + specialize (IH rest). destruct (URI.unescape rest); [discriminate|].
        cbn [cbind]. intros E. injection E as <-. apply IH; [lia|reflexivity]. }
  apply (H (length s)). apply le_n.
Qed.

Lemma assemble_throws_URIError (ts : list URI.token) (err : error) :
  URI.assemble ts = Throw err -> err = URIError.
Proof.
  assert (H : forall n ts, (length ts <= n)%nat -> URI.assemble ts = Throw err ->
                           err = URIError).
  { clear ts. induction n as [|n IH]; intros ts Hlen.
    - destruct ts; [discriminate|cbn in Hlen; lia].
    - destruct ts as [|t rest]; [discriminate|]. cbn [length] in Hlen.
      assert (Hrec : forall l pre, (length l <= n)%nat ->
                (let? r := URI.assemble l in Normal (pre ++ r)) = Throw err ->
                err = URIError).
      { intros l pre Hl. specialize (IH l Hl). destruct (URI.assemble l); [discriminate|].
        cbn [cbind]. intros E. injection E as <-. now apply IH. }
      destruct t as [c|b]; cbn [URI.assemble].
      + apply (Hrec rest [c]). lia.
      + repeat match goal with
        | |- (if ?t then _ else _) = _ -> _ => destruct t
        | |- Throw _ = Throw _ -> _ => intros E; now injection E as <-
        | |- match ?l with [] => _ | _ :: _ => _ end = _ -> _ =>
          let x := fresh "t" in destruct l as [|x ?]; [|destruct x; cbn [length] in Hlen]
        end;
        try (apply (Hrec _ [_]); lia); try (apply Hrec; lia). }
  apply (H (length ts)). apply le_n.
Qed.

Lemma decode_throws_URIError (s : jsstring) (err : error) :
  URI.decodeURIComponent s = Throw err -> err = URIError.
Proof.
  unfold URI.decodeURIComponent. destruct (URI.unescape s) as [ts|e] eqn:E; cbn [cbind].
  - apply assemble_throws_URIError.
  - intros H. injection H as <-. now apply unescape_throws_URIError with s.
Qed.

(** ** The renderer *)

Section MoreRenderer.
Context {P : Platform}.

(** The loop depends on the page only through the two containers. *)
Lemma forEach_render_same (entries : list (jsstring * value)) (w1 w2 : world) :
  activitiesList w1 = activitiesList w2 -> activitySelect w1 = activitySelect w2 ->
  fst (forEach entries render_activity w1) = fst (forEach entries render_activity w2)
  /\ activitiesList (snd (forEach entries render_activity w1))
     = activitiesList (snd (forEach entries render_activity w2))
  /\ activitySelect (snd (forEach entries render_activity w1))
     = activitySelect (snd (forEach entries render_activity w2)).
Proof.
  revert w1 w2. induction entries as [|[name details] rest IH]; intros w1 w2 Hl Hs.
  - cbn. repeat split; assumption.
  - rewrite !forEach_cons. unfold render_activity, bind, eval, modify.
    destruct (activity_card name details) as [card|e].
    + apply IH; cbn; [rewrite Hl|rewrite Hs]; reflexivity.
    + cbn. repeat split; assumption.
Qed.

(** Appending options never moves the selection. *)
Lemma forEach_render_selected (entries : list (jsstring * value)) (w : world) (i : nat) :
  selectedIndex (activitySelect w) = Some i ->
  selectedIndex (activitySelect (snd (forEach entries render_activity w))) = Some i.
Proof.
  revert w. induction entries as [|[name details] rest IH]; intros w Hi; [exact Hi|].
  rewrite forEach_cons. unfold render_activity, bind, eval, modify.
  destruct (activity_card name details) as [card|e]; [|exact Hi].
  apply IH. cbn. rewrite Hi. reflexivity.
Qed.

(** The loop stops at the first entry that throws, with the cards and
    options of the entries before it in place. *)
Lemma forEach_render_prefix (pre post : list (jsstring * value)) (bad : jsstring * value)
    (cards : list jsstring) (e : error) (w : world) :
  Forall2 (fun entry card => activity_card (fst entry) (snd entry) = Normal card) pre cards ->
  activity_card (fst bad) (snd bad) = Throw e ->
  exists w', forEach (pre ++ bad :: post) render_activity w = (Throw e, w')
             /\ activitiesList w' = activitiesList w ++ map ActivityCard cards
             /\ options (activitySelect w')
                = options (activitySelect w) ++ map (fun entry => activity_option (fst entry)) pre
             /\ rendering_only w w'.
Proof.
  intros Hpre Hbad. revert w.
  induction Hpre as [|entry card pre cards Hc Hpre IH]; intros w.
  - cbn [app]. rewrite forEach_cons.
    destruct (render_activity_cases bad w) as [(e' & He' & Hr)|(c & w1 & Hc & _)];
      [|congruence].
    rewrite Hr. assert (e' = e) by congruence. subst e'.
    exists w. cbn. rewrite !app_nil_r. repeat split.
  - rewrite <- app_comm_cons, forEach_cons.
    destruct (render_activity_cases entry w)
      as [(e' & He' & _)|(c & w1 & Hc1 & Hr & Hl & Ho & Hf)]; [congruence|].
    assert (c = card) by congruence. subst c. rewrite Hr.
    destruct (IH w1) as (w2 & Hrun & Hl2 & Ho2 & Hf2).
    exists w2. split; [exact Hrun|].
    split; [rewrite Hl2, Hl; cbn [map]; rewrite <- app_assoc; reflexivity|].
    split; [rewrite Ho2, Ho; cbn [map]; rewrite <- app_assoc; reflexivity|].
    eapply rendering_only_trans; eassumption.
Qed.

Lemma cards_unique (entries : list (jsstring * value)) (cards1 cards2 : list jsstring) :
  Forall2 (fun entry card => activity_card (fst entry) (snd entry) = Normal card)
          entries cards1 ->
  Forall2 (fun entry card => activity_card (fst entry) (snd entry) = Normal card)
          entries cards2 ->
  cards1 = cards2.
Proof.
  intros H1. revert cards2. induction H1 as [|entry c1 entries cards1 Hc1 H1 IH];
    intros cards2 H2; inversion H2 as [|? c2 ? cards2' Hc2 H2']; subst; [reflexivity|].
  f_equal; [congruence|now apply IH].
Qed.

Lemma cards_exclude_throw (entries : list (jsstring * value)) (cards : list jsstring)
    (e : error) :
  Forall2 (fun entry card => activity_card (fst entry) (snd entry) = Normal card)
          entries cards ->
  Exists (fun entry => activity_card (fst entry) (snd entry) = Throw e) entries -> False.
Proof.
  intros Hall. induction Hall as [|entry card rest cards Hc Hall IH]; intros Hex.
  - inversion Hex.
  - inversion Hex as [? ? Ht|? ? Ht]; subst; [congruence|now apply IH].
Qed.

(** X6: no exception leaves [fetchActivities]: whatever the request comes
    back with, it returns normally, has sent exactly one request (GET
    /activities, bypassing the cache), and has not touched the message
    banner, the timers, the email field or the dialogs. *)
Theorem renderer_returns_normally (o : fetch_outcome) (w : world) :
  exists w', fetchActivities o w = (Normal tt, w')
             /\ requests w' = requests w ++ [activities_request]
             /\ req_method activities_request = GET
             /\ req_url activities_request = lit "/activities"
             /\ req_no_store activities_request = true
             /\ messageDiv w' = messageDiv w /\ timers w' = timers w
             /\ emailInput w' = emailInput w /\ dialogs w' = dialogs w
             /\ uncaught w' = uncaught w.
Proof.
  destruct (fetchActivities_frame o w) as (w' & Hrun & F1 & F2 & F3 & F4 & F5 & F6).
  exists w'. repeat split; assumption.
Qed.

(** With a JSON body the two containers are rebuilt from the body alone. *)
Lemma parsed_render_forgets_page (r : response) (v : value) (wa wb : world) :
  body r = Some v ->
  activitiesList (snd (fetchActivities (Responded r) wa))
  = activitiesList (snd (fetchActivities (Responded r) wb))
  /\ activitySelect (snd (fetchActivities (Responded r) wa))
     = activitySelect (snd (fetchActivities (Responded r) wb)).
Proof.
  intros Hb. rewrite !(fetchActivities_parsed r v) by assumption.
  destruct (Object_entries v) as [entries|e]; [|split; reflexivity].
  set (wa0 := with_activitySelect placeholder_only
                (with_activitiesList []
                   (with_requests (requests wa ++ [activities_request]) wa))).
  set (wb0 := with_activitySelect placeholder_only
                (with_activitiesList []
                   (with_requests (requests wb ++ [activities_request]) wb))).
  destruct (forEach_render_same entries wa0 wb0 eq_refl eq_refl) as (Hc & Hl & Hs).
  destruct (forEach entries render_activity wa0) as [ca wa'].
  destruct (forEach entries render_activity wb0) as [cb wb'].
  cbn [fst snd] in Hc, Hl, Hs. subst cb.
  destruct ca as [[]|e]; cbn; split; try assumption; reflexivity.
Qed.

(** X7: rendering twice with the same outcome changes nothing the second
    time: the activities container and the selection control after the
    second call are those after the first. *)
Theorem render_twice_same (o : fetch_outcome) (w : world) :
  let w1 := run (fetchActivities o) w in
  let w2 := run (fetchActivities o) w1 in
  activitiesList w2 = activitiesList w1 /\ activitySelect w2 = activitySelect w1.
Proof.
  cbn zeta. unfold run.
  destruct (fetchActivities_frame o w) as (w1 & Hrun1 & _).
  destruct (fetchActivities_frame o w1) as (w2 & Hrun2 & _).
  rewrite Hrun1, Hrun2.
  change w2 with (snd (Normal tt, w2)). rewrite <- Hrun2.
  change w1 with (snd (Normal tt, w1)) at 2 4. rewrite <- Hrun1.
  clear Hrun2 w2.
  destruct o as [|r].
  - rewrite (fetchActivities_failed Rejected NetworkFailure w1) by reflexivity.
    rewrite (fetchActivities_failed Rejected NetworkFailure w) in * by reflexivity.
    injection Hrun1 as <-. split; reflexivity.
  - destruct (body r) as [v|] eqn:Hb.
    + exact (parsed_render_forgets_page r v w1 w Hb).
    + assert (Hnone : body r = None /\ SyntaxError = SyntaxError) by (split; [assumption|reflexivity]).
      rewrite (fetchActivities_failed (Responded r) SyntaxError w1) by exact Hnone.
      rewrite (fetchActivities_failed (Responded r) SyntaxError w) in * by exact Hnone.
      injection Hrun1 as <-. split; reflexivity.
Qed.

(** X8: when every entry of the parsed body renders, the selection
    control holds the placeholder followed by one option for each
    activity, in the order of the entries, with the activity name as value
    and as text; the placeholder is the shown option, so the control's
    value is the empty string; and the container holds the cards alone. *)
Theorem rendered_select_lists_activities
    (s : Z) (v : value) (entries : list (jsstring * value)) (cards : list jsstring)
    (w : world) :
  Object_entries v = Normal entries ->
  Forall2 (fun entry card => activity_card (fst entry) (snd entry) = Normal card)
          entries cards ->
  let w' := run (fetchActivities (Responded {| status := s; body := Some v |})) w in
  activitiesList w' = map ActivityCard cards
  /\ options (activitySelect w')
     = placeholder :: map (fun entry => activity_option (fst entry)) entries
  /\ selectedIndex (activitySelect w') = Some 0%nat
  /\ select_value (activitySelect w') = []
  /\ console w' = console w.
Proof.
  intros Hent Hcards. cbn zeta. unfold run.
  rewrite (fetchActivities_parsed _ v) by reflexivity. rewrite Hent.
  match goal with |- context [forEach entries render_activity ?w0] =>
    pose proof (forEach_render_selected entries w0 0%nat eq_refl) as Hsel;
    destruct (forEach_render_cases entries w0)
      as [(e & w1 & Hrun & _ & Hex)|(cards' & w1 & Hrun & Hall & Hl & Ho & Hf)]
  end.
  - exfalso. eapply cards_exclude_throw; eassumption.
  - rewrite Hrun in *. cbn [snd] in Hsel.
    assert (cards' = cards) by (eapply cards_unique; eassumption). subst cards'.
    destruct Hf as (F1 & F2 & F3 & F4 & F5 & F6 & F7).
    split; [exact Hl|]. split; [exact Ho|]. split; [exact Hsel|].
    split; [|exact F4].
    unfold select_value. rewrite Hsel, Ho. reflexivity.
Qed.

(** X9: when the loop stops at an entry whose card throws, the container
    shows the failure message alone and the error of that entry is
    logged, but the selection control keeps the placeholder and the
    options of the entries rendered before it. *)
Theorem failed_render_keeps_earlier_options
    (s : Z) (pre post : list (jsstring * value)) (bad : jsstring * value)
    (cards : list jsstring) (e : error) (w : world) :
  Forall2 (fun entry card => activity_card (fst entry) (snd entry) = Normal card) pre cards ->
  activity_card (fst bad) (snd bad) = Throw e ->
  let w' := run (fetchActivities
                   (Responded {| status := s; body := Some (VObj (pre ++ bad :: post)) |})) w in
  activitiesList w' = [Markup load_failure]
  /\ options (activitySelect w')
     = placeholder :: map (fun entry => activity_option (fst entry)) pre
  /\ console w' = console w ++ [(lit "Error fetching activities:", e)].
Proof.
  intros Hpre Hbad. cbn zeta. unfold run.
  rewrite (fetchActivities_parsed _ (VObj (pre ++ bad :: post))) by reflexivity.
  cbn [Object_entries].
  match goal with |- context [forEach _ render_activity ?w0] =>
    destruct (forEach_render_prefix pre post bad cards e w0 Hpre Hbad)
      as (w1 & Hrun & _ & Ho & Hf)
  end.
  rewrite Hrun. destruct Hf as (F1 & F2 & F3 & F4 & F5 & F6 & F7). cbn.
  split; [reflexivity|]. split; [exact Ho|]. rewrite F4. reflexivity.
Qed.

Lemma append_items_non_string (name : jsstring) (ps : list value) (acc : jsstring) :
  existsb (fun p => negb (is_string p)) ps = true ->
  exists e, append_items name acc ps = Throw e.
Proof.
  revert acc. induction ps as [|p ps IH]; intros acc H; [discriminate|].
  cbn [existsb] in H. cbn [append_items].
  destruct (participant_item name p) as [item|e] eqn:Hitem; cbn [cbind].
  - destruct (is_string p) eqn:Hp.
    + apply IH. exact H.
    + exfalso. unfold participant_item in Hitem.
      destruct (URI.encodeURIComponent name); [|discriminate].
      cbn [cbind] in Hitem.
      destruct (ToString p) as [text|]; [|discriminate].
      cbn [cbind] in Hitem.
      destruct (URI.encodeURIComponent text); [|discriminate].
      destruct p; try discriminate.
  - exists e. reflexivity.
Qed.

(** X10: a roster with an element that is not a string (a number, null,
    an object) makes the card of its activity throw, so the container
    shows the failure message instead of any card. *)
Theorem non_string_participant_fails_render
    (s : Z) (entries : list (jsstring * value)) (name : jsstring)
    (props : list (jsstring * value)) (ps : list value) (w : world) :
  In (name, VObj props) entries ->
  lookup (lit "participants") props = VArr ps ->
  existsb (fun p => negb (is_string p)) ps = true ->
  Z.of_nat (length ps) < 2 ^ 32 ->
  let w' := run (fetchActivities (Responded {| status := s; body := Some (VObj entries) |})) w in
  (exists e, activity_card name (VObj props) = Throw e)
  /\ activitiesList w' = [Markup load_failure].
Proof.
  intros Hin Hps Hbad Hlen. cbn zeta.
  assert (Hthrow : exists e, activity_card name (VObj props) = Throw e).
  { unfold activity_card, participants_markup. cbn [get cbind]. rewrite Hps.
    rewrite get_array_length. cbn [cbind truthy].
    assert (Hsafe : safe_integer (Z.of_nat (length ps))).
    { unfold safe_integer. split; [|
        apply Z.le_trans with (2 ^ 32); [lia|apply Z.lt_le_incl; reflexivity]].
      apply Z.le_trans with 0; [|lia]. apply Z.lt_le_incl. reflexivity. }
    rewrite num_truthy_of_Z by assumption.
    assert (Hne : (Z.of_nat (length ps) =? 0) = false).
    { apply Z.eqb_neq. destruct ps; [discriminate|cbn [length]; lia]. }
    rewrite Hne. cbn [negb].
    destruct (append_items_non_string name ps
                (lit "<ul class=" ++ quoted (lit "participants-list") ++ lit ">") Hbad)
      as (e & He).
    rewrite He. cbn [cbind].
    destruct (minus _ _) as [spots|e']; cbn [cbind]; eexists; reflexivity. }
  split; [exact Hthrow|]. destruct Hthrow as (e & He).
  unfold run. rewrite (fetchActivities_parsed _ (VObj entries)) by reflexivity.
  cbn [Object_entries].
  match goal with |- context [forEach entries render_activity ?w0] =>
    destruct (forEach_render_cases entries w0)
      as [(e' & w1 & Hrun & _ & _)|(cards & w1 & Hrun & Hall & _)]
  end; rewrite Hrun; [reflexivity|].
  exfalso. clear Hrun. induction Hall as [|entry card rest cards Hc Hall IH].
  - inversion Hin.
  - destruct Hin as [Heq|Hin]; [subst entry; cbn [fst snd] in Hc; congruence|now apply IH].
Qed.

(** X20: a body whose entries cannot be listed (JSON null) is caught like
    any other failure, but only after both containers were cleared: the
    container shows the failure message, the selection control is back to
    the placeholder alone, and the TypeError is logged. *)
Theorem unlistable_body_clears_select (s : Z) (v : value) (e : error) (w : world) :
  Object_entries v = Throw e ->
  let w' := run (fetchActivities (Responded {| status := s; body := Some v |})) w in
  activitiesList w' = [Markup load_failure]
  /\ activitySelect w' = placeholder_only
  /\ console w' = console w ++ [(lit "Error fetching activities:", TypeError)].
Proof.
  intros He. cbn zeta. unfold run.
  rewrite (fetchActivities_parsed _ v) by reflexivity. rewrite He.
  assert (e = TypeError) by (destruct v; cbn in He; congruence). subst e.
  repeat split.
Qed.

(** X21: a response whose body is not JSON fails before anything is
    cleared: the container shows the failure message, the SyntaxError is
    logged, and the selection control keeps the options it had. *)
Theorem unparsable_body_keeps_select (r : response) (w : world) :
  body r = None ->
  let w' := run (fetchActivities (Responded r)) w in
  activitiesList w' = [Markup load_failure]
  /\ activitySelect w' = activitySelect w
  /\ console w' = console w ++ [(lit "Error fetching activities:", SyntaxError)].
Proof.
  intros Hb. cbn zeta. unfold run.
  rewrite (fetchActivities_failed (Responded r) SyntaxError)
    by (split; [assumption|reflexivity]).
  repeat split.
Qed.

End MoreRenderer.

(** ** The two listeners *)

Section MoreListeners.
Context {P : Platform}.

Lemma encode_throws_URIError (s : jsstring) (err : error) :
  URI.encodeURIComponent s = Throw err -> err = URIError.
Proof.
  assert (H : forall n s, (length s <= n)%nat -> URI.encodeURIComponent s = Throw err ->
                          err = URIError).
  { clear s. induction n as [|n IH]; intros s Hlen.
    - destruct s; [discriminate|cbn in Hlen; lia].
    - destruct s as [|c rest]; [discriminate|]. cbn [URI.encodeURIComponent length] in *.
      assert (Hrec : forall l (f : jsstring -> jsstring), (length l <= n)%nat ->
                (let? r := URI.encodeURIComponent l in Normal (f r)) = Throw err ->
                err = URIError).
      { intros l f Hl. specialize (IH l Hl). destruct (URI.encodeURIComponent l);
          [discriminate|]. cbn [cbind]. intros E. injection E as <-. now apply IH. }
      destruct (URI.uriUnescaped c); [apply (Hrec rest (fun r => c :: r)); lia|].
      destruct (URI.is_trailing_surrogate c); [intros E; now injection E as <-|].
      destruct (URI.is_leading_surrogate c).
      + destruct rest as [|d rest']; [intros E; now injection E as <-|].
        destruct (URI.is_trailing_surrogate d); [|intros E; now injection E as <-].
        cbn [length] in Hlen.
        apply (Hrec rest' (fun r => URI.escape_code_point (URI.pair_code_point c d) ++ r)).
        lia.
      + apply (Hrec rest (fun r => URI.escape_code_point c ++ r)). lia. }
  apply (H (length s)). apply le_n.
Qed.

(** The page after a sign-up whose failure branch ran. *)
Lemma on_submit_failure_world (w : world) (o refresh : fetch_outcome)
    (a e : jsstring) (detail : option jsstring) :
  URI.encodeURIComponent (select_value (activitySelect w)) = Normal a ->
  URI.encodeURIComponent (input_value (emailInput w)) = Normal e ->
  reply_of o = Failure detail ->
  run (on_submit o refresh) w
  = with_timers (timers w ++ [hide_after_5s])
      (with_messageDiv
         {| textContent := match detail with
                           | Some text => text
                           | None => lit "An error occurred"
                           end;
            classList := [lit "error"] |}
         (with_requests (requests w ++ [signup_request a e]) w)).
Proof.
  intros Ha He Hrep. unfold reply_of, shown_as in Hrep.
  destruct o as [|r]; [discriminate|].
  destruct (body r) as [v|] eqn:Hb; [|discriminate].
  destruct (ok r) eqn:Hok.
  { destruct (get v (lit "message")) as [m|]; [|discriminate].
    destruct (text_of m); discriminate. }
  destruct (get v (lit "detail")) as [d|] eqn:Hd; [|discriminate].
  script_steps. rewrite Ha, He. cbn. rewrite Hb. cbn. rewrite Hok, Hd. cbn.
  unfold or_else. destruct (truthy d).
  - destruct (text_of d) as [text|]; [|discriminate]. injection Hrep as <-. reflexivity.
  - injection Hrep as <-. reflexivity.
Qed.

(** X11: a sign-up whose form fields can be encoded sends the POST for
    them first and fetches the list again only when the success branch
    ran (an HTTP-OK answer whose message could be shown); no other
    request is made. *)
Theorem signup_request_sequence (w : world) (o refresh : fetch_outcome) (a e : jsstring) :
  URI.encodeURIComponent (select_value (activitySelect w)) = Normal a ->
  URI.encodeURIComponent (input_value (emailInput w)) = Normal e ->
  requests (run (on_submit o refresh) w)
  = requests w ++ signup_request a e :: refresh_requests o.
Proof.
  intros Ha He. unfold refresh_requests, reply_of, shown_as.
  script_steps. rewrite Ha, He. cbn.
  destruct o as [|r]; [reflexivity|]. cbn.
  destruct (body r) as [v|]; [|reflexivity]. cbn.
  destruct (ok r).
  - destruct (get v (lit "message")) as [m|]; [|reflexivity]. cbn.
    destruct (text_of m) as [text|]; [|reflexivity]. cbn.
    match goal with |- context [fetchActivities refresh ?w0] =>
      destruct (fetchActivities_frame refresh w0) as (w1 & Hrun & _ & _ & _ & _ & _ & Hreq)
    end.
    rewrite Hrun. cbn. rewrite Hreq. cbn. rewrite <- app_assoc. reflexivity.
  - destruct (get v (lit "detail")) as [d|]; [|reflexivity]. cbn.
    unfold or_else. destruct (truthy d); [|reflexivity].
    destruct (text_of d); reflexivity.
Qed.

(** X12: a confirmed click on a row whose two data attributes hold the
    percent-encoded text of an activity name and of a participant (both
    well-formed and not empty) asks about that participant and that
    activity by their decoded names and sends the DELETE whose URL
    carries exactly the texts of the attributes; the list is fetched
    again only when the success branch ran. *)
Theorem click_on_encoded_row (w : world) (name p a e : jsstring)
    (removal refresh : fetch_outcome) :
  URI.well_formed name = true -> URI.well_formed p = true ->
  empty name = false -> empty p = false ->
  URI.encodeURIComponent name = Normal a -> URI.encodeURIComponent p = Normal e ->
  let w' := run (on_click (RemoveInRow (Some a) (Some e)) true removal refresh) w in
  dialogs w' = dialogs w ++ [confirm_prompt p name]
  /\ requests w' = requests w ++ removal_request a e :: refresh_requests removal.
Proof.
  intros Hn Hp Hne Hpe Ha He. cbn zeta.
  destruct (encode_then_decode _ name (le_n _) Hn) as (a' & Ha' & _ & Dn).
  destruct (encode_then_decode _ p (le_n _) Hp) as (e' & He' & _ & Dp).
  assert (a' = a) by congruence. assert (e' = e) by congruence. subst a' e'.
  unfold refresh_requests, reply_of, shown_as.
  script_steps. cbn [dataset_string]. rewrite Dn, Dp. cbn. rewrite Hne, Hpe. cbn.
  rewrite Ha, He. cbn.
  destruct removal as [|r]; [split; reflexivity|]. cbn.
  destruct (body r) as [v|]; [|split; reflexivity]. cbn.
  destruct (ok r).
  - destruct (get v (lit "message")) as [m|]; [|split; reflexivity]. cbn.
    destruct (text_of m) as [text|]; [|split; reflexivity]. cbn.
    match goal with |- context [fetchActivities refresh ?w0] =>
      destruct (fetchActivities_frame refresh w0) as (w1 & Hrun & _ & _ & _ & Hd & _ & Hreq)
    end.
    rewrite Hrun. cbn. rewrite Hd, Hreq. cbn. rewrite <- app_assoc. split; reflexivity.
  - destruct (get v (lit "detail")) as [d|]; [|split; reflexivity]. cbn.
    unfold or_else. destruct (truthy d); [|split; reflexivity].
    destruct (text_of d); split; reflexivity.
Qed.

(** X13: when a form field cannot be encoded (it holds an unpaired
    surrogate), the sign-up sends no request at all: the URIError is
    caught and logged, the banner shows the fixed sign-up failure text
    with the error style, and no timer is armed. *)
Theorem unencodable_form_sends_nothing (w : world) (o refresh : fetch_outcome) :
  signup_sent w = false ->
  let w' := run (on_submit o refresh) w in
  requests w' = requests w
  /\ console w' = console w ++ [(lit "Error signing up:", URIError)]
  /\ messageDiv w'
     = {| textContent := lit "Failed to sign up. Please try again.";
          classList := [lit "error"] |}
  /\ timers w' = timers w.
Proof.
  unfold signup_sent. intros Hs. cbn zeta. script_steps.
  destruct (URI.encodeURIComponent (select_value (activitySelect w))) as [a|err] eqn:Ha.
  - destruct (URI.encodeURIComponent (input_value (emailInput w))) as [e|err] eqn:He;
      [discriminate|].
    apply encode_throws_URIError in He. subst err. repeat split.
  - apply encode_throws_URIError in Ha. subst err. repeat split.
Qed.

(** X14: a sign-up whose success branch ran (an HTTP-OK answer with a
    JSON body that is not null and a message that could be shown) shows
    that message with the success style, puts the email field back to its
    default value, and arms the hide timer. *)
Theorem successful_signup_resets_form (w : world) (o refresh : fetch_outcome)
    (message : jsstring) :
  signup_sent w = true -> reply_of o = Success message ->
  let w' := run (on_submit o refresh) w in
  messageDiv w' = {| textContent := message; classList := [lit "success"] |}
  /\ input_value (emailInput w') = input_default (emailInput w)
  /\ timers w' = timers w ++ [hide_after_5s].
Proof.
  unfold signup_sent, reply_of, shown_as. intros Hs Hrep. cbn zeta.
  destruct (URI.encodeURIComponent (select_value (activitySelect w))) as [a|] eqn:Ha;
    [|discriminate].
  destruct (URI.encodeURIComponent (input_value (emailInput w))) as [e|] eqn:He;
    [|discriminate].
  destruct o as [|r]; [discriminate|].
  destruct (body r) as [v|] eqn:Hb; [|discriminate].
  destruct (ok r) eqn:Hok.
  2:{ destruct (get v (lit "detail")) as [d|]; [|discriminate].
      destruct (truthy d); [|discriminate]. destruct (text_of d); discriminate. }
  destruct (get v (lit "message")) as [m|] eqn:Hm; [|discriminate].
  destruct (text_of m) as [text|] eqn:Ht; [|discriminate].
  injection Hrep as ->.
  script_steps. rewrite Ha, He. cbn. rewrite Hb. cbn. rewrite Hok, Hm. cbn.
  rewrite Ht. cbn.
  match goal with |- context [fetchActivities refresh ?w0] =>
    destruct (fetchActivities_frame refresh w0) as (w1 & Hrun & Hem & Hmsg & Htm & _)
  end.
  rewrite Hrun. cbn. rewrite Hem, Hmsg, Htm. cbn. repeat split.
Qed.

(** X15: a row whose data-activity or data-email attribute is there but
    decodes to the empty string is ignored: no dialog, no request, the
    page is exactly what it was. *)
Theorem empty_attribute_ignored (w : world) (data_activity data_email : option jsstring)
    (activityName email : jsstring) (sure : bool) (removal refresh : fetch_outcome) :
  URI.decodeURIComponent (dataset_string data_activity) = Normal activityName ->
  URI.decodeURIComponent (dataset_string data_email) = Normal email ->
  empty activityName || empty email = true ->
  run (on_click (RemoveInRow data_activity data_email) sure removal refresh) w = w.
Proof.
  intros Hn Hm Hempty. script_steps. rewrite Hn, Hm. cbn. rewrite Hempty. reflexivity.
Qed.

(** X16: a row whose data-activity or data-email attribute is not valid
    percent-encoding makes the listener end with an uncaught URIError
    before anything else happens: no dialog, no request, no banner. *)
Theorem malformed_attribute_uncaught (w : world) (data_activity data_email : option jsstring)
    (sure : bool) (removal refresh : fetch_outcome) :
  (exists err, URI.decodeURIComponent (dataset_string data_activity) = Throw err)
  \/ (exists err, URI.decodeURIComponent (dataset_string data_email) = Throw err) ->
  run (on_click (RemoveInRow data_activity data_email) sure removal refresh) w
  = with_uncaught (uncaught w ++ [URIError]) w.
Proof.
  intros H. script_steps.
  destruct (URI.decodeURIComponent (dataset_string data_activity)) as [n|err] eqn:Hn.
  - destruct H as [(err & H)|(err & H)]; [discriminate|].
    rewrite H. apply decode_throws_URIError in H. subst err. reflexivity.
  - apply decode_throws_URIError in Hn. subst err. reflexivity.
Qed.

(** X17: no listener ever cancels a timer: after a sign-up and after a
    click the timers pending before are still pending, in order, followed
    by at most one new 5-second hide timer. *)
Theorem listeners_never_cancel_timers (w : world) (target : click_target) (sure : bool)
    (o refresh : fetch_outcome) :
  (timers (run (on_submit o refresh) w) = timers w
   \/ timers (run (on_submit o refresh) w) = timers w ++ [hide_after_5s])
  /\ (timers (run (on_click target sure o refresh) w) = timers w
      \/ timers (run (on_click target sure o refresh) w) = timers w ++ [hide_after_5s]).
Proof.
  split.
  - script_steps.
    destruct (URI.encodeURIComponent (select_value (activitySelect w))) as [a|];
      [|left; reflexivity].
    destruct (URI.encodeURIComponent (input_value (emailInput w))) as [e|];
      [|left; reflexivity].
    cbn. destruct o as [|r]; [left; reflexivity|]. cbn.
    destruct (body r) as [v|]; [|left; reflexivity]. cbn.
    destruct (ok r).
    + destruct (get v (lit "message")) as [m|]; [|left; reflexivity]. cbn.
      destruct (text_of m) as [text|]; [|left; reflexivity]. cbn.
      match goal with |- context [fetchActivities refresh ?w0] =>
        destruct (fetchActivities_frame refresh w0) as (w1 & Hrun & _ & _ & Htm & _)
      end.
      rewrite Hrun. cbn. rewrite Htm. right. reflexivity.
    + destruct (get v (lit "detail")) as [d|]; [|left; reflexivity]. cbn.
      unfold or_else. destruct (truthy d); [|right; reflexivity].
      destruct (text_of d); [right|left]; reflexivity.
  - destruct target as [| |da de]; script_steps; [left; reflexivity..|].
    destruct (URI.decodeURIComponent (dataset_string da)) as [n|]; [|left; reflexivity].
    destruct (URI.decodeURIComponent (dataset_string de)) as [m|]; [|left; reflexivity].
    cbn. destruct (empty n || empty m); [left; reflexivity|].
    cbn. destruct sure; [|left; reflexivity]. cbn.
    destruct (URI.encodeURIComponent n) as [a|]; [|right; reflexivity].
    destruct (URI.encodeURIComponent m) as [e|]; [|right; reflexivity].
    cbn. destruct o as [|r]; [right; reflexivity|]. cbn.
    destruct (body r) as [v|]; [|right; reflexivity]. cbn.
    destruct (ok r).
    + destruct (get v (lit "message")) as [msg|]; [|right; reflexivity]. cbn.
      destruct (text_of msg) as [text|]; [|right; reflexivity]. cbn.
      match goal with |- context [fetchActivities refresh ?w0] =>
        destruct (fetchActivities_frame refresh w0) as (w1 & Hrun & _ & _ & Htm & _)
      end.
      rewrite Hrun. cbn. rewrite Htm. right. reflexivity.
    + destruct (get v (lit "detail")) as [d|]; [|right; reflexivity]. cbn.
      unfold or_else. destruct (truthy d); [|right; reflexivity].
      destruct (text_of d); right; reflexivity.
Qed.


(** X19: timers are not debounced: after two sign-ups in a row whose
    failure branch ran, two hide timers are pending, and when the first
    one fires the banner is hidden while it shows the text of the second
    failure. *)
Theorem stale_timer_hides_later_message (w : world) (o1 o2 r1 r2 : fetch_outcome)
    (d1 d2 : option jsstring) :
  signup_sent w = true -> reply_of o1 = Failure d1 -> reply_of o2 = Failure d2 ->
  let w2 := run (on_submit o2 r2) (run (on_submit o1 r1) w) in
  timers w2 = timers w ++ [hide_after_5s; hide_after_5s]
  /\ is_hidden (messageDiv w2) = false
  /\ textContent (messageDiv w2)
     = match d2 with
       | Some text => text
       | None => lit "An error occurred"
       end
  /\ is_hidden (messageDiv (fire hide_after_5s w2)) = true
  /\ textContent (messageDiv (fire hide_after_5s w2)) = textContent (messageDiv w2).
Proof.
  unfold signup_sent. intros Hs H1 H2. cbn zeta.
  destruct (URI.encodeURIComponent (select_value (activitySelect w))) as [a|] eqn:Ha;
    [|discriminate].
  destruct (URI.encodeURIComponent (input_value (emailInput w))) as [e|] eqn:He;
    [|discriminate].
  rewrite (on_submit_failure_world w o1 r1 a e d1 Ha He H1).
  match goal with |- context [run (on_submit o2 r2) ?w1] =>
    rewrite (on_submit_failure_world w1 o2 r2 a e d2 Ha He H2)
  end.
  cbn. rewrite <- app_assoc. repeat split.
Qed.

End MoreListeners.

(** ** Further concrete runs *)

Example strings_of_values :
  ToString (VArr [VStr (lit "a"); VNull; VObj []; VArr [VBool true; VUndefined]])
  = Normal (lit "a,,[object Object],true,")
  /\ ToString (VObj [(lit "toString", VNum (Some 1))]) = Throw TypeError
  /\ ToString (VArr [VStr (lit "a"); VObj [(lit "toString", VNull)]]) = Throw TypeError
  /\ ToNumber (VObj [(lit "toString", VNum (Some 1))]) = Throw TypeError
  /\ text_of VNull = Normal [].
Proof. repeat split. Qed.

(** An HTTP-OK answer whose message cannot be converted to a string: line
    83 throws, so the catch block runs: no reset, no re-fetch, no timer. *)
Example unshowable_message_is_an_exception :
  let o := Responded {| status := 200;
                        body := Some (VObj [(lit "message",
                                             VObj [(lit "toString", VNum (Some 1))])]) |} in
  let w' := run (on_submit o chess_only) loaded_page in
  reply_of o = Exception
  /\ messageDiv w' = {| textContent := lit "Failed to sign up. Please try again.";
                        classList := [lit "error"] |}
  /\ emailInput w' = emailInput loaded_page
  /\ requests w' = [signup_request (lit "Chess%20Club") (lit "amy%40mergington.edu")]
  /\ timers w' = []
  /\ console w' = [(lit "Error signing up:", TypeError)].
Proof. repeat split. Qed.

(** A description that cannot be converted to a string fails the render. *)
Example unshowable_description_fails_render :
  activitiesList
    (run (fetchActivities
            (Responded
               {| status := 200;
                  body := Some (VObj [(lit "Art",
                                       VObj [(lit "description", VObj [(lit "toString", VNull)]);
                                             (lit "schedule", VStr (lit "Mondays"));
                                             (lit "max_participants", VNum (Some 5));
                                             (lit "participants", VArr [])])]) |}))
         fresh_page)
  = [Markup load_failure].
Proof. reflexivity. Qed.

Lemma rendered_select_lists_activities_chess :
  Object_entries (activities_value [(lit "Chess Club", chess_club)])
  = Normal [(lit "Chess Club", activity_value chess_club)]
  /\ options (activitySelect (run (fetchActivities chess_only) loaded_page))
     = [placeholder; activity_option (lit "Chess Club")]
  /\ select_value (activitySelect (run (fetchActivities chess_only) loaded_page)) = [].
Proof.
  split; [reflexivity|].
  destruct (activity_card (lit "Chess Club") (activity_value chess_club)) as [card|] eqn:Hcard;
    [|discriminate Hcard].
  destruct (rendered_select_lists_activities 200
              (activities_value [(lit "Chess Club", chess_club)])
              [(lit "Chess Club", activity_value chess_club)] [card] loaded_page
              eq_refl (Forall2_cons (lit "Chess Club", activity_value chess_club) card Hcard
                 (Forall2_nil _)))
    as (_ & Ho & _ & Hv & _).
  split; [exact Ho|exact Hv].
Defined.

Lemma failed_render_keeps_earlier_options_art :
  activity_card (lit "Art") (VObj [(lit "max_participants", VNum (Some 5))]) = Throw TypeError
  /\ options (activitySelect
                (run (fetchActivities
                        (Responded
                           {| status := 200;
                              body := Some (VObj ([(lit "Chess Club", activity_value chess_club)]
                                                  ++ (lit "Art",
                                                      VObj [(lit "max_participants",
                                                             VNum (Some 5))]) :: [])) |}))
                     fresh_page))
     = [placeholder; activity_option (lit "Chess Club")].
Proof.
  split; [reflexivity|].
  destruct (activity_card (lit "Chess Club") (activity_value chess_club)) as [card|] eqn:Hcard;
    [|discriminate Hcard].
  exact (proj1 (proj2 (failed_render_keeps_earlier_options 200
                         [(lit "Chess Club", activity_value chess_club)] []
                         (lit "Art", VObj [(lit "max_participants", VNum (Some 5))])
                         [card] TypeError fresh_page
                         (Forall2_cons (lit "Chess Club", activity_value chess_club) card Hcard
                 (Forall2_nil _)) eq_refl))).
Defined.

Lemma non_string_participant_fails_render_number :
  existsb (fun p => negb (is_string p)) [VStr (lit "amy@mergington.edu"); VNum (Some 7)] = true
  /\ activitiesList
       (run (fetchActivities
               (Responded
                  {| status := 200;
                     body := Some (VObj [(lit "Art",
                                          VObj [(lit "participants",
                                                 VArr [VStr (lit "amy@mergington.edu");
                                                       VNum (Some 7)])])]) |}))
            fresh_page)
     = [Markup load_failure].
Proof.
  split; [reflexivity|].
  refine (proj2 (non_string_participant_fails_render 200
                   [(lit "Art",
                     VObj [(lit "participants",
                            VArr [VStr (lit "amy@mergington.edu"); VNum (Some 7)])])]
                   (lit "Art")
                   [(lit "participants",
                     VArr [VStr (lit "amy@mergington.edu"); VNum (Some 7)])]
                   [VStr (lit "amy@mergington.edu"); VNum (Some 7)] fresh_page
                   (or_introl eq_refl) eq_refl eq_refl _)).
  reflexivity.
Defined.

Lemma unlistable_body_clears_select_null :
  Object_entries VNull = Throw TypeError
  /\ activitySelect (run (fetchActivities (Responded {| status := 200; body := Some VNull |}))
                         loaded_page)
     = placeholder_only.
Proof.
  split; [reflexivity|].
  exact (proj1 (proj2 (unlistable_body_clears_select 200 VNull TypeError loaded_page eq_refl))).
Defined.

Lemma unparsable_body_keeps_select_html :
  body {| status := 502; body := None |} = None
  /\ activitySelect (run (fetchActivities (Responded {| status := 502; body := None |}))
                         loaded_page)
     = activitySelect loaded_page.
Proof.
  split; [reflexivity|].
  exact (proj1 (proj2 (unparsable_body_keeps_select {| status := 502; body := None |}
                         loaded_page eq_refl))).
Defined.

Lemma signup_request_sequence_on_400 :
  URI.encodeURIComponent (select_value (activitySelect loaded_page)) = Normal (lit "Chess%20Club")
  /\ URI.encodeURIComponent (input_value (emailInput loaded_page))
     = Normal (lit "amy%40mergington.edu")
  /\ requests (run (on_submit already_registered chess_only) loaded_page)
     = [signup_request (lit "Chess%20Club") (lit "amy%40mergington.edu")].
Proof.
  split; [reflexivity|]. split; [reflexivity|].
  exact (signup_request_sequence loaded_page already_registered chess_only
           (lit "Chess%20Club") (lit "amy%40mergington.edu") eq_refl eq_refl).
Defined.

Lemma click_on_encoded_row_amy :
  URI.well_formed (lit "Chess Club") = true
  /\ URI.well_formed (lit "amy@mergington.edu") = true
  /\ URI.encodeURIComponent (lit "Chess Club") = Normal (lit "Chess%20Club")
  /\ URI.encodeURIComponent (lit "amy@mergington.edu") = Normal (lit "amy%40mergington.edu")
  /\ dialogs (run (on_click amy_row true unregistered chess_only) loaded_page)
     = [confirm_prompt (lit "amy@mergington.edu") (lit "Chess Club")]
  /\ requests (run (on_click amy_row true unregistered chess_only) loaded_page)
     = [removal_request (lit "Chess%20Club") (lit "amy%40mergington.edu"); activities_request].
Proof.
  do 4 (split; [reflexivity|]).
  exact (click_on_encoded_row loaded_page (lit "Chess Club") (lit "amy@mergington.edu")
           (lit "Chess%20Club") (lit "amy%40mergington.edu") unregistered chess_only
           eq_refl eq_refl eq_refl eq_refl eq_refl eq_refl).
Defined.

Lemma unencodable_form_sends_nothing_surrogate :
  signup_sent unencodable_page = false
  /\ requests (run (on_submit unregistered chess_only) unencodable_page) = [].
Proof.
  split; [reflexivity|].
  exact (proj1 (unencodable_form_sends_nothing unencodable_page unregistered chess_only
                  eq_refl)).
Defined.

Lemma successful_signup_resets_form_amy :
  signup_sent loaded_page = true
  /\ reply_of unregistered = Success (lit "Unregistered amy@mergington.edu")
  /\ input_value (emailInput (run (on_submit unregistered chess_only) loaded_page)) = [].
Proof.
  split; [reflexivity|]. split; [reflexivity|].
  exact (proj1 (proj2 (successful_signup_resets_form loaded_page unregistered chess_only
                         (lit "Unregistered amy@mergington.edu") eq_refl eq_refl))).
Defined.

Lemma empty_attribute_ignored_activity :
  URI.decodeURIComponent (dataset_string (Some [])) = Normal []
  /\ run (on_click (RemoveInRow (Some []) (Some (lit "amy%40mergington.edu")))
                   true unregistered chess_only) loaded_page
     = loaded_page.
Proof.
  split; [reflexivity|].
  exact (empty_attribute_ignored loaded_page (Some []) (Some (lit "amy%40mergington.edu"))
           [] (lit "amy@mergington.edu") true unregistered chess_only
           eq_refl eq_refl eq_refl).
Defined.

Lemma malformed_attribute_uncaught_percent :
  URI.decodeURIComponent (dataset_string (Some (lit "100%"))) = Throw URIError
  /\ run (on_click (RemoveInRow (Some (lit "100%")) (Some (lit "amy%40mergington.edu")))
                   true unregistered chess_only) loaded_page
     = with_uncaught [URIError] loaded_page.
Proof.
  split; [reflexivity|].
  exact (malformed_attribute_uncaught loaded_page (Some (lit "100%"))
           (Some (lit "amy%40mergington.edu")) true unregistered chess_only
           (or_introl (ex_intro _ URIError eq_refl))).
Defined.

Lemma stale_timer_hides_later_message_twice :
  signup_sent loaded_page = true
  /\ reply_of already_registered = Failure (Some (lit "Already registered"))
  /\ reply_of bad_request_no_detail = Failure None
  /\ timers (run (on_submit bad_request_no_detail chess_only)
                 (run (on_submit already_registered chess_only) loaded_page))
     = [hide_after_5s; hide_after_5s].
Proof.
  split; [reflexivity|]. split; [reflexivity|]. split; [reflexivity|].
  exact (proj1 (stale_timer_hides_later_message loaded_page already_registered
                  bad_request_no_detail chess_only chess_only
                  (Some (lit "Already registered")) None eq_refl eq_refl eq_refl)).
Defined.
